(** * Template-based prompt routing: [TemplateRouter] and the [AutoRouter] hook

    A shallow embedding of
    - [litellm/router_strategy/auto_router/base_template_router.py],
    - [litellm/router_strategy/auto_router/template_router.py],
    - [litellm/router_strategy/auto_router/auto_router.py].

    Python objects are records, Python dictionaries are finite maps
    ([gmap]), and methods are computations in a state-and-exception monad
    over the object and its environment (files and standard output).  The
    template-mining engine that [TemplateRouter] wraps is an imported
    library: the router is written against an interface ([TemplateMiner]),
    and one instance of it ([drain_miner]) follows the engine's
    description in the specification. *)

From Stdlib Require Import QArith.
From stdpp Require Import gmap strings list fin_maps pretty.

Close Scope Q_scope.
Open Scope Z_scope.

(** ** Python values and strings *)

(** The values stored in metadata records and result dictionaries
    ([Dict[str, Any]]): the picklable scalars and lists of them. *)
#[warnings="-register-all"]
Inductive pyval :=
  | PyNone
  | PyBool (b : bool)
  | PyInt (z : Z)
  | PyStr (s : string)
  | PyList (l : list pyval).

(** A dictionary with string keys. *)
Abbreviation dict := (gmap string pyval).

(** [d.get(k, default)] *)
Definition dict_get `{Countable K} {V} (d : gmap K V) (k : K) (dflt : V) : V :=
  default dflt (d !! k).

(** [str.isspace] on the ASCII range: TAB, LF, VT, FF, CR, FS, GS, RS, US
    and the space. *)
Definition isspace (c : Ascii.ascii) : bool :=
  let n := Ascii.nat_of_ascii c in
  ((9 <=? n)%nat && (n <=? 13)%nat) || ((28 <=? n)%nat && (n <=? 32)%nat).

Fixpoint lstrip (s : string) : string :=
  match s with
  | EmptyString => EmptyString
  | String c s' => if isspace c then lstrip s' else s
  end.

Definition rstrip (s : string) : string := String.rev (lstrip (String.rev s)).

(** [s.strip()] *)
Definition strip (s : string) : string := rstrip (lstrip s).

(** [f'cluster_{cluster_id}'] *)
Definition default_name (cluster_id : Z) : string :=
  "cluster_" +:+ pretty cluster_id.

(** ** Clusters

    Modelled from the spec: the cluster objects handed out by the mining
    engine (attributes [cluster_id], [size] and method [get_template()]);
    the engine's classes are not under src/.  A template is a sequence of
    tokens in which some positions are the wildcard marker. *)
Inductive token :=
  | Tok (s : string)
  | Wildcard.

#[global] Instance token_eq_dec : EqDecision token.
Proof. solve_decision. Defined.

Record LogCluster := {
  cluster_id : Z;
  log_template_tokens : list token;
  size : Z
}.

Definition render (t : token) : string :=
  match t with Tok s => s | Wildcard => "*" end.

Definition get_template (c : LogCluster) : list string :=
  render <$> log_template_tokens c.

Definition token_count (c : LogCluster) : nat := length (log_template_tokens c).

Inductive change_type := cluster_created | cluster_template_changed | none.

Definition change_type_str (c : change_type) : string :=
  match c with
  | cluster_created => "cluster_created"
  | cluster_template_changed => "cluster_template_changed"
  | none => "none"
  end.

(** The dictionary returned by the engine's [add_log_message], restricted
    to the three keys the router reads. *)
Record AddResult := {
  r_cluster_id : Z;
  r_template_mined : list string;
  r_change_type : change_type
}.

(** ** The mining engine of the specification *)

Module Drain.

(** Modelled from the spec: the tokenizer, which splits a message into
    its whitespace-separated tokens. *)
Fixpoint split_go (cur : option string) (s : string) : list string :=
  match s with
  | EmptyString => option_list (String.rev <$> cur)
  | String c s' =>
      if isspace c
      then option_list (String.rev <$> cur) ++ split_go None s'
      else split_go (Some (String c (default EmptyString cur))) s'
  end.

Definition tokenize (message : string) : list string := split_go None message.

(** Modelled from the spec: the state of the template mining engine
    (section 4.1): the similarity threshold, the clusters in the order of
    their ids, and the buckets from a token count to the ids of the
    clusters of that length. *)
Record t := {
  sim_th : Q;
  clusters : list LogCluster;
  buckets : gmap nat (list Z)
}.

Definition empty (th : Q) : t :=
  {| sim_th := th; clusters := []; buckets := ∅ |}.

Definition position_matches (tk : token) (w : string) : bool :=
  match tk with
  | Wildcard => true
  | Tok s => bool_decide (s = w)
  end.

Definition matching_positions (template : list token) (tokens : list string) : nat :=
  length (filter (λ b : bool, b = true) (zip_with position_matches template tokens)).

(** The fraction of positions that are a wildcard or equal. *)
Definition similarity (template : list token) (tokens : list string) : Q :=
  (inject_Z (Z.of_nat (matching_positions template tokens))
   / inject_Z (Z.of_nat (length tokens)))%Q.

Definition candidates (d : t) (n : nat) : option (list LogCluster) :=
  match buckets d !! n with
  | None => None
  | Some ids => Some (omap (λ id : Z, clusters d !! Z.to_nat id) ids)
  end.

(** The better of two scored candidates: the higher score, and on equal
    scores the lower cluster id. *)
Definition better (a b : LogCluster * Q) : LogCluster * Q :=
  match (a.2 ?= b.2)%Q with
  | Gt => a
  | Lt => b
  | Eq => if cluster_id a.1 <=? cluster_id b.1 then a else b
  end.

Fixpoint best (tokens : list string) (cs : list LogCluster) : option (LogCluster * Q) :=
  match cs with
  | [] => None
  | c :: cs' =>
      let a := (c, similarity (log_template_tokens c) tokens) in
      Some (from_option (better a) a (best tokens cs'))
  end.

(** Steps 1 to 3 of [insert], shared with [match]: the best candidate of
    the bucket, when it reaches the threshold. *)
Definition search (d : t) (tokens : list string) : option LogCluster :=
  match candidates d (length tokens) with
  | None => None
  | Some cs =>
      match best tokens cs with
      | None => None
      | Some (c, score) => if Qle_bool (sim_th d) score then Some c else None
      end
  end.

Definition create (d : t) (tokens : list string) : AddResult * t :=
  let id := Z.of_nat (length (clusters d)) in
  let c := {| cluster_id := id; log_template_tokens := Tok <$> tokens; size := 1 |} in
  let n := length tokens in
  ({| r_cluster_id := id; r_template_mined := get_template c;
      r_change_type := cluster_created |},
   {| sim_th := sim_th d;
      clusters := clusters d ++ [c];
      buckets := <[n := default [] (buckets d !! n) ++ [id]]> (buckets d) |}).

Definition generalize (template : list token) (tokens : list string) : list token :=
  zip_with (λ tk w, if position_matches tk w then tk else Wildcard) template tokens.

Definition merge (d : t) (c : LogCluster) (tokens : list string) : AddResult * t :=
  let template' := generalize (log_template_tokens c) tokens in
  let c' := {| cluster_id := cluster_id c; log_template_tokens := template';
               size := size c + 1 |} in
  ({| r_cluster_id := cluster_id c; r_template_mined := get_template c';
      r_change_type :=
        if bool_decide (template' = log_template_tokens c)
        then none else cluster_template_changed |},
   {| sim_th := sim_th d;
      clusters := <[Z.to_nat (cluster_id c) := c']> (clusters d);
      buckets := buckets d |}).

(** Modelled from the spec: operation [insert] of section 4.1. *)
Definition insert (message : string) (d : t) : AddResult * t :=
  let tokens := tokenize message in
  match search d tokens with
  | Some c => merge d c tokens
  | None => create d tokens
  end.

(** Modelled from the spec: operation [match] of section 4.1, which is
    read-only. *)
Definition match_ (message : string) (d : t) : option LogCluster :=
  search d (tokenize message).

End Drain.

(** ** Exceptions, and the monad of methods *)

Inductive exn_class :=
  | KeyboardInterrupt
  | Exception
  | OSError
  | FileNotFoundError
  | PermissionError
  | IsADirectoryError
  | NotADirectoryError
  | UnpicklingError
  | KeyError
  | IndexError
  | ValidationError.

#[global] Instance exn_class_eq_dec : EqDecision exn_class.
Proof. solve_decision. Defined.

(** The base class among these, up to [Exception]; [KeyboardInterrupt]
    derives from [BaseException] only, and [ValidationError] from
    [Exception] through [ValueError]. *)
Definition base_class (c : exn_class) : option exn_class :=
  match c with
  | KeyboardInterrupt | Exception => None
  | OSError | UnpicklingError | KeyError | IndexError | ValidationError =>
      Some Exception
  | FileNotFoundError | PermissionError | IsADirectoryError
  | NotADirectoryError => Some OSError
  end.

Definition issubclass (c c' : exn_class) : bool :=
  bool_decide (c = c')
  || bool_decide (base_class c = Some c')
  || bool_decide (base_class c ≫= base_class = Some c').

(** An exception object: its class and [str(e)]. *)
Record exn := { exn_type : exn_class; exn_msg : string }.

Inductive outcome (A : Type) :=
  | Ok (a : A)
  | Raise (e : exn).
Arguments Ok {A} a.
Arguments Raise {A} e.

(** A computation on a state [S] that returns or raises; the state
    changes made before an exception stay. *)
Definition M (S A : Type) : Type := S → outcome A * S.

#[global] Instance M_ret S : MRet (M S) := λ A a s, (Ok a, s).

#[global] Instance M_bind S : MBind (M S) := λ A B k m s,
  match m s with
  | (Ok a, s') => k a s'
  | (Raise e, s') => (Raise e, s')
  end.

Definition raise {S A} (c : exn_class) (msg : string) : M S A :=
  λ s, (Raise {| exn_type := c; exn_msg := msg |}, s).

Definition gets {S A} (f : S → A) : M S A := λ s, (Ok (f s), s).

Definition modify {S} (f : S → S) : M S unit := λ s, (Ok tt, f s).

(** The first [except] clause whose class the exception is an instance of. *)
Fixpoint handler_for {S A} (e : exn) (handlers : list (exn_class * (exn → M S A)))
  : option (M S A) :=
  match handlers with
  | [] => None
  | (c, h) :: rest =>
      if issubclass (exn_type e) c then Some (h e) else handler_for e rest
  end.

(** [try: body except c1 as e: h1 except c2 as e: h2 ...] *)
Definition try_except {S A} (body : M S A)
    (handlers : list (exn_class * (exn → M S A))) : M S A :=
  λ s, match body s with
       | (Ok a, s') => (Ok a, s')
       | (Raise e, s') =>
           match handler_for e handlers with
           | Some h => h s'
           | None => (Raise e, s')
           end
       end.

(** Run a computation on a part of the state. *)
Definition zoom {S T A} (get : S → T) (set : T → S → S) (m : M T A) : M S A :=
  λ s, let '(r, t') := m (get s) in (r, set t' s).

(** ** The environment: files and standard output *)

(** What a file holds: the pickle of a metadata overlay (what
    [_save_metadata] writes), a snapshot of the engine, or bytes that are no
    pickle.  The pickle of an object of another type is left out:
    [_load_metadata] would assign it to [_cluster_metadata], which is
    declared [Dict[int, Dict[str, Any]]]. *)
Inductive content :=
  | PickledMetadata (md : gmap Z dict)
  | EngineSnapshot (d : Drain.t)
  | Garbage (raw : string).

(** What is at a path: a directory, which may be searched and written to,
    or a regular file with its permissions and what it holds. *)
Inductive node :=
  | Directory
  | RegularFile (readable writable : bool) (data : content).

Record World := {
  files : gmap string node;
  stdout : list string
}.

(** [print(line)] *)
Definition print (line : string) : M World unit :=
  modify (λ w, {| files := files w; stdout := stdout w ++ [line] |}).

(** The directories that the path [prefix ++ rest] leads through after
    [prefix]: the prefixes of the path that end before a separator, from the
    outermost on; the root, which is the empty prefix, is left out. *)
Fixpoint ancestors_from (prefix rest : string) : list string :=
  match rest with
  | EmptyString => []
  | String c rest' =>
      let inner := ancestors_from (prefix +:+ String c EmptyString) rest' in
      if bool_decide (String c EmptyString = "/") && bool_decide (prefix ≠ "")
      then prefix :: inner
      else inner
  end.

(** The directories that a path leads through. *)
Definition ancestors (path : string) : list string := ancestors_from "" path.

Definition quoted (path : string) : string := "'" +:+ path +:+ "'".

(** The error, if any, of walking through the directories [dirs] on the way
    to [path]: the first of them that does not exist, or that is not a
    directory. *)
Fixpoint walk_error (w : World) (path : string) (dirs : list string) : option exn :=
  match dirs with
  | [] => None
  | d :: dirs' =>
      match files w !! d with
      | Some Directory => walk_error w path dirs'
      | Some (RegularFile _ _ _) =>
          Some {| exn_type := NotADirectoryError;
                  exn_msg := "[Errno 20] Not a directory: " +:+ quoted path |}
      | None =>
          Some {| exn_type := FileNotFoundError;
                  exn_msg := "[Errno 2] No such file or directory: " +:+ quoted path |}
      end
  end.

(** The error, if any, of reaching the directory that holds [path]. *)
Definition parent_error (w : World) (path : string) : option exn :=
  walk_error w path (ancestors path).

(** [open(path, 'rb')], returning what the file holds.  A file that is
    there is reached through its directories; where there is none, the
    error is that of the walk to its directory ([NotADirectoryError] for a
    path that leads through a regular file), or that there is no such file
    ([FileNotFoundError]). *)
Definition open_rb (path : string) : M World content :=
  λ w, match files w !! path with
       | None =>
           match parent_error w path with
           | Some e => (Raise e, w)
           | None => raise FileNotFoundError
                       ("[Errno 2] No such file or directory: " +:+ quoted path) w
           end
       | Some Directory => raise IsADirectoryError
                   ("[Errno 21] Is a directory: " +:+ quoted path) w
       | Some (RegularFile false _ _) => raise PermissionError
                   ("[Errno 13] Permission denied: " +:+ quoted path) w
       | Some (RegularFile true _ data) => (Ok data, w)
       end.

Definition set_file (path : string) (n : node) (w : World) : World :=
  {| files := <[path := n]> (files w); stdout := stdout w |}.

(** [open(path, 'wb')]: the file is created, or truncated. *)
Definition open_wb (path : string) : M World unit :=
  λ w, match parent_error w path with
       | Some e => (Raise e, w)
       | None =>
           match files w !! path with
           | None => (Ok tt, set_file path (RegularFile true true (Garbage "")) w)
           | Some Directory => raise IsADirectoryError
                   ("[Errno 21] Is a directory: " +:+ quoted path) w
           | Some (RegularFile _ false _) => raise PermissionError
                   ("[Errno 13] Permission denied: " +:+ quoted path) w
           | Some (RegularFile r true _) =>
               (Ok tt, set_file path (RegularFile r true (Garbage "")) w)
           end
       end.

(** [pickle.load(f)] on what the file holds. *)
Definition pickle_load (data : content) : M World (gmap Z dict) :=
  match data with
  | PickledMetadata md => mret md
  | EngineSnapshot _ => raise UnpicklingError "invalid load key"
  | Garbage _ => raise UnpicklingError "pickle data was truncated"
  end.

(** [pickle.dump(md, f)] into the file opened at [path]: the values of an
    overlay are all picklable, and the write to the open file is taken to
    succeed. *)
Definition pickle_dump (md : gmap Z dict) (path : string) : M World unit :=
  modify (λ w,
    match files w !! path with
    | Some (RegularFile r wr _) => set_file path (RegularFile r wr (PickledMetadata md)) w
    | _ => w
    end).

Arguments print : simpl never.
Arguments open_rb : simpl never.
Arguments open_wb : simpl never.
Arguments pickle_load : simpl never.
Arguments pickle_dump : simpl never.

(** ** The interface of the mining engine

    The operations of the engine that [TemplateRouter] calls:
    [TemplateMiner(persistence_handler=...)], [add_log_message], [match] and
    the attribute [drain.clusters].  [add_log_message] and [match] act on
    the state of the engine in memory; the saving of its snapshot, which the
    engine does by a policy of its own, is not part of the interface. *)
Class TemplateMiner (miner : Type) := {
  miner_new : string → M World miner;
  miner_add_log_message : string → M miner AddResult;
  miner_match : string → M miner (option LogCluster);
  miner_clusters : miner → list LogCluster
}.

(** Modelled from the spec: the engine of section 4.1 behind the
    interface.  Its constructor follows section 4.3: a missing snapshot
    gives the empty engine, a snapshot that cannot be read or restored gives
    the empty engine and a warning. *)
Definition drain_new (path : string) : M World Drain.t :=
  λ w, match files w !! path with
       | None => (Ok (Drain.empty (1#2)), w)
       | Some (RegularFile true _ (EngineSnapshot d)) => (Ok d, w)
       | Some _ =>
           (print ("Warning: could not restore the engine state from " +:+ path);;
            mret (Drain.empty (1#2))) w
       end.

#[global] Instance drain_miner : TemplateMiner Drain.t := {|
  miner_new := drain_new;
  miner_add_log_message := λ message d,
    let '(r, d') := Drain.insert message d in (Ok r, d');
  miner_match := λ message d, (Ok (Drain.match_ message d), d);
  miner_clusters := Drain.clusters
|}.

(** ** Objects in their environment *)

(** The state a method runs on: its object and the environment. *)
Record Sys (O : Type) := { self : O; os : World }.
Arguments self {O} s.
Arguments os {O} s.

Definition in_os {O A} (m : M World A) : M (Sys O) A :=
  zoom os (λ w s, {| self := self s; os := w |}) m.

(** Run a constructor body on the fresh object [self0]. *)
Definition construct {O} (self0 : O) (body : M (Sys O) unit) : M World O :=
  λ w, match body {| self := self0; os := w |} with
       | (Ok _, s) => (Ok (self s), os s)
       | (Raise e, s) => (Raise e, os s)
       end.

(** ** base_template_router.py

    The abstract methods of [BaseTemplateRouter], but for [print_summary],
    which only prints. *)
Class BaseTemplateRouter (R : Type) := {
  __call__ : string → M (Sys R) (option dict);
  add_log_message : string → M (Sys R) dict;
  match_ : string → M (Sys R) (option dict);
  get_all_templates : M (Sys R) (list dict);
  set_cluster_metadata : Z → string → dict → M (Sys R) unit
}.

(** ** template_router.py *)

Module TemplateRouter.

Record FilePersistence := { file_path : string }.

Record t (miner : Type) := {
  persistence_handler : FilePersistence;
  metadata_file : string;
  template_miner : miner;
  _cluster_metadata : gmap Z dict
}.
Arguments persistence_handler {miner} _.
Arguments metadata_file {miner} _.
Arguments template_miner {miner} _.
Arguments _cluster_metadata {miner} _.

Section methods.
Context `{TemplateMiner miner}.

#[local] Abbreviation Self := (Sys (t miner)).

(** The object after [self._cluster_metadata = md]. *)
Definition with_metadata (md : gmap Z dict) (r : t miner) : t miner :=
  {| persistence_handler := persistence_handler r;
     metadata_file := metadata_file r;
     template_miner := template_miner r;
     _cluster_metadata := md |}.

(** The object after a change of [self.template_miner]'s state. *)
Definition with_template_miner (tm : miner) (r : t miner) : t miner :=
  {| persistence_handler := persistence_handler r;
     metadata_file := metadata_file r;
     template_miner := tm;
     _cluster_metadata := _cluster_metadata r |}.

(** [self._cluster_metadata = md] *)
Definition assign_metadata (md : gmap Z dict) : M Self unit :=
  modify (λ s, {| self := with_metadata md (self s); os := os s |}).

(** A method call on [self.template_miner]. *)
Definition on_template_miner {A} (m : M miner A) : M Self A :=
  zoom (λ s, template_miner (self s))
       (λ tm s, {| self := with_template_miner tm (self s); os := os s |})
       m.

(** [self._cluster_metadata[cluster_id]] *)
Definition getitem (cluster_id : Z) : M Self dict :=
  md ← gets (λ s, _cluster_metadata (self s));
  match md !! cluster_id with
  | Some record => mret record
  | None => raise KeyError (pretty cluster_id)
  end.

(** [self._cluster_metadata[cluster_id] = record] *)
Definition setitem (cluster_id : Z) (record : dict) : M Self unit :=
  md ← gets (λ s, _cluster_metadata (self s));
  assign_metadata (<[cluster_id := record]> md).

Definition _load_metadata : M Self unit :=
  path ← gets (λ s, metadata_file (self s));
  try_except
    (data ← in_os (open_rb path);
     md ← in_os (pickle_load data);
     assign_metadata md)
    [ (FileNotFoundError, λ _, assign_metadata ∅);
      (Exception, λ e,
         in_os (print ("Warning: Could not load metadata from " +:+ path
                       +:+ ": " +:+ exn_msg e));;
         assign_metadata ∅) ].

Definition _save_metadata : M Self unit :=
  path ← gets (λ s, metadata_file (self s));
  try_except
    (in_os (open_wb path);;
     md ← gets (λ s, _cluster_metadata (self s));
     in_os (pickle_dump md path))
    [ (Exception, λ e,
         in_os (print ("Error: Could not save metadata to " +:+ path
                       +:+ ": " +:+ exn_msg e))) ].

Definition __init__ (persistence_file metadata_file : string)
    (persistence_handler : option FilePersistence) : M World (t miner) :=
  let persistence_handler :=
    default {| file_path := persistence_file |} persistence_handler in
  template_miner ← miner_new (file_path persistence_handler);
  construct
    {| persistence_handler := persistence_handler;
       metadata_file := metadata_file;
       template_miner := template_miner;
       _cluster_metadata := ∅ |}
    _load_metadata.

Definition match_ (message : string) : M Self (option dict) :=
  matched ← on_template_miner (miner_match (strip message));
  match matched with
  | Some matched =>
      let cluster_id := cluster_id matched in
      md ← gets (λ s, _cluster_metadata (self s));
      mret (Some
        {[ "cluster_id" := PyInt cluster_id;
           "template" := PyList (PyStr <$> get_template matched);
           "size" := PyInt (size matched);
           "name" := dict_get (dict_get md cluster_id ∅) "name"
                       (PyStr (default_name cluster_id));
           "target_model" := dict_get (dict_get md cluster_id ∅)
                               "target_model" PyNone ]})
  | None => mret None
  end.

Definition __call__ (text : string) : M Self (option dict) :=
  result ← match_ text;
  mret result.

Definition add_log_message (message : string) : M Self dict :=
  result ← on_template_miner (miner_add_log_message (strip message));
  mret {[ "cluster_id" := PyInt (r_cluster_id result);
          "template_mined" := PyList (PyStr <$> r_template_mined result);
          "change_type" := PyStr (change_type_str (r_change_type result)) ]}.

Definition get_all_templates : M Self (list dict) :=
  clusters ← gets (λ s, miner_clusters (template_miner (self s)));
  md ← gets (λ s, _cluster_metadata (self s));
  mret ((λ cluster,
           let cluster_id := cluster_id cluster in
           {[ "cluster_id" := PyInt cluster_id;
              "template" := PyList (PyStr <$> get_template cluster);
              "size" := PyInt (size cluster);
              "name" := dict_get (dict_get md cluster_id ∅) "name"
                          (PyStr (default_name cluster_id)) ]})
        <$> clusters).

(** [name] and [kwargs] are the bound arguments of the call: Python
    binds a keyword [name] to the parameter, so [kwargs] never has that
    key. *)
Definition set_cluster_metadata (cluster_id : Z) (name : string)
    (kwargs : dict) : M Self unit :=
  md ← gets (λ s, _cluster_metadata (self s));
  (if bool_decide (cluster_id ∉ dom md)
   then setitem cluster_id ∅
   else mret tt);;
  (if bool_decide (name ≠ "")
   then record ← getitem cluster_id;
        setitem cluster_id (<["name" := PyStr name]> record)
   else mret tt);;
  record ← getitem cluster_id;
  setitem cluster_id (kwargs ∪ record);;
  _save_metadata.

(** [s * n] *)
Fixpoint string_repeat (s : string) (n : nat) : string :=
  match n with
  | O => EmptyString
  | S n' => s +:+ string_repeat s n'
  end.

(** [for x in l: body(x)] *)
Fixpoint for_each {S A} (l : list A) (body : A → M S unit) : M S unit :=
  match l with
  | [] => mret tt
  | x :: l' => body x;; for_each l' body
  end.

(** How an f-string renders a template and a metadata record: Python's
    [str] of them. *)
Context (str_template : list string → string) (str_dict : dict → string).

(** The body of the loop of [print_summary]. *)
Definition print_cluster (cluster : LogCluster) : M Self unit :=
  in_os (print ("Cluster ID: " +:+ pretty (cluster_id cluster)));;
  in_os (print ("Template: " +:+ str_template (get_template cluster)));;
  in_os (print ("Size: " +:+ pretty (size cluster)));;
  md ← gets (λ s, _cluster_metadata (self s));
  let metadata := dict_get md (cluster_id cluster) ∅ in
  (if bool_decide (stdpp.base.size metadata ≠ 0%nat)
   then in_os (print ("Metadata: " +:+ str_dict metadata))
   else mret tt);;
  in_os (print (string_repeat "-" 60)).

Definition print_summary : M Self unit :=
  in_os (print (string_repeat "=" 60));;
  in_os (print "ALL TEMPLATES:");;
  in_os (print (string_repeat "=" 60));;
  clusters ← gets (λ s, miner_clusters (template_miner (self s)));
  for_each clusters print_cluster.

End methods.

End TemplateRouter.

#[global] Instance TemplateRouter_router `{TemplateMiner miner}
  : BaseTemplateRouter (TemplateRouter.t miner) := {|
  __call__ := TemplateRouter.__call__;
  add_log_message := TemplateRouter.add_log_message;
  match_ := TemplateRouter.match_;
  get_all_templates := TemplateRouter.get_all_templates;
  set_cluster_metadata := TemplateRouter.set_cluster_metadata
|}.

(** ** auto_router.py: [AutoRouter.async_pre_routing_hook] *)

Module AutoRouter.

(** The attributes of an [AutoRouter], in the order in which [__init__]
    assigns them.  [Router] is the type of the LiteLLM router, [Route] and
    [SemanticRouter] are the types of the semantic-router library, and [R]
    is the template router ([BaseTemplateRouter]). *)
Record t (Router Route SemanticRouter R : Type) := {
  model_name : string;
  auto_router_config_path : option string;
  auto_router_config : option string;
  auto_sync_value : string;
  loaded_routes : list Route;
  routelayer : option SemanticRouter;
  default_model : string;
  embedding_model : string;
  litellm_router_instance : Router;
  template_routelayer : option R
}.
Arguments model_name {Router Route SemanticRouter R} _.
Arguments auto_router_config_path {Router Route SemanticRouter R} _.
Arguments auto_router_config {Router Route SemanticRouter R} _.
Arguments auto_sync_value {Router Route SemanticRouter R} _.
Arguments loaded_routes {Router Route SemanticRouter R} _.
Arguments routelayer {Router Route SemanticRouter R} _.
Arguments default_model {Router Route SemanticRouter R} _.
Arguments embedding_model {Router Route SemanticRouter R} _.
Arguments litellm_router_instance {Router Route SemanticRouter R} _.
Arguments template_routelayer {Router Route SemanticRouter R} _.

(** The response of the hook.  Its class is declared in
    [litellm/types/router.py], which is not among the files embedded here,
    as a validated model with the fields [model: str] and
    [messages: Optional[List[Dict[str, str]]]]. *)
Record PreRoutingHookResponse := {
  model : pyval;
  messages : list (gmap string string)
}.

(** [PreRoutingHookResponse(model=..., messages=...)]: the constructor
    validates the fields against their declared types, and refuses a model
    that is not a string. *)
Definition new_PreRoutingHookResponse {S} (model : pyval)
    (messages : list (gmap string string)) : M S PreRoutingHookResponse :=
  match model with
  | PyStr _ => mret {| model := model; messages := messages |}
  | _ => raise ValidationError
           "1 validation error for PreRoutingHookResponse"
  end.

Section hook.
Context {Router Route SemanticRouter : Type}.
(** [SemanticRouter(routes=..., encoder=LiteLLMRouterEncoder(
    litellm_router_instance=..., model_name=...), auto_sync=...)], a
    constructor of the semantic-router library. *)
Context (new_SemanticRouter : list Route → Router → string → string →
                              M World SemanticRouter).
Context `{BaseTemplateRouter R}.

#[local] Abbreviation Self := (Sys (t Router Route SemanticRouter R)).

(** The object after [self.routelayer = rl]. *)
Definition with_routelayer (rl : SemanticRouter) (a : t Router Route SemanticRouter R)
  : t Router Route SemanticRouter R :=
  {| model_name := model_name a;
     auto_router_config_path := auto_router_config_path a;
     auto_router_config := auto_router_config a;
     auto_sync_value := auto_sync_value a;
     loaded_routes := loaded_routes a;
     routelayer := Some rl;
     default_model := default_model a;
     embedding_model := embedding_model a;
     litellm_router_instance := litellm_router_instance a;
     template_routelayer := template_routelayer a |}.

(** The object after a method call on [self.template_routelayer] that left
    that object as [r]. *)
Definition with_template_routelayer (r : R) (a : t Router Route SemanticRouter R)
  : t Router Route SemanticRouter R :=
  {| model_name := model_name a;
     auto_router_config_path := auto_router_config_path a;
     auto_router_config := auto_router_config a;
     auto_sync_value := auto_sync_value a;
     loaded_routes := loaded_routes a;
     routelayer := routelayer a;
     default_model := default_model a;
     embedding_model := embedding_model a;
     litellm_router_instance := litellm_router_instance a;
     template_routelayer := Some r |}.

(** [if self.routelayer is None: self.routelayer = SemanticRouter(...)] *)
Definition create_route_layer : M Self unit :=
  rl ← gets (λ s, routelayer (self s));
  match rl with
  | None =>
      routes ← gets (λ s, loaded_routes (self s));
      instance ← gets (λ s, litellm_router_instance (self s));
      embedding ← gets (λ s, embedding_model (self s));
      auto_sync ← gets (λ s, auto_sync_value (self s));
      rl ← in_os (new_SemanticRouter routes instance embedding auto_sync);
      modify (λ s, {| self := with_routelayer rl (self s); os := os s |})
  | Some _ => mret tt
  end.

(** A method call on the object [r] that [self.template_routelayer]
    holds. *)
Definition on_template_routelayer {A} (r : R) (m : M (Sys R) A) : M Self A :=
  zoom (λ s, {| self := r; os := os s |})
       (λ s' s, {| self := with_template_routelayer (self s') (self s); os := os s' |})
       m.

(** [messages[-1]] *)
Definition last_item {S A} (l : list A) : M S A :=
  match last l with
  | Some x => mret x
  | None => raise IndexError "list index out of range"
  end.

(** The calls to the logger are left out; [model] is the hook's first
    parameter, which the body overwrites before it reads it. *)
Definition async_pre_routing_hook (model : string) (request_kwargs : dict)
    (messages : option (list (gmap string string)))
    (input : option pyval) (specific_deployment : option bool)
  : M Self (option PreRoutingHookResponse) :=
  match messages with
  | None => mret None
  | Some messages =>
      create_route_layer;;
      user_message ← last_item messages;
      let message_content := dict_get user_message "content" "" in
      dflt ← gets (λ s, default_model (self s));
      let model := PyStr dflt in
      trl ← gets (λ s, template_routelayer (self s));
      model ← match trl with
               | Some r =>
                   template_match ← on_template_routelayer r (match_ message_content);
                   match template_match with
                   | Some template_match =>
                       mret (dict_get template_match "target_model" (PyStr dflt))
                   | None => mret model
                   end
               | None => mret model
               end;
      response ← new_PreRoutingHookResponse model messages;
      mret (Some response)
  end.

End hook.

(** ** auto_router.py: construction *)

Definition starts_with_slash (s : string) : bool :=
  match s with
  | String c _ => bool_decide (String c EmptyString = "/")
  | EmptyString => false
  end.

(** [os.path.join(a, b)] on POSIX: an absolute [b] replaces [a]. *)
Definition os_path_join (a b : string) : string :=
  if starts_with_slash b then b
  else if bool_decide (a = "") || starts_with_slash (String.rev a) then a +:+ b
  else a +:+ "/" +:+ b.

(** The values that [json.loads] returns. *)
#[warnings="-register-all"]
Inductive json :=
  | JNull
  | JBool (b : bool)
  | JInt (z : Z)
  | JFloat (literal : string)
  | JString (s : string)
  | JArray (l : list json)
  | JObject (fields : gmap string json).

(** [type(j).__name__] *)
Definition type_name (j : json) : string :=
  match j with
  | JNull => "NoneType"
  | JBool _ => "bool"
  | JInt _ => "int"
  | JFloat _ => "float"
  | JString _ => "str"
  | JArray _ => "list"
  | JObject _ => "dict"
  end.

(** What the construction can raise: an exception of the classes above, or
    one of the three built-in errors of the configuration loader. *)
Inductive raised :=
  | Builtin (e : exn)
  | ValueError (msg : string)
  | AttributeError (msg : string)
  | TypeError (msg : string).

Inductive result (A : Type) :=
  | Returned (a : A)
  | Raised (r : raised).
Arguments Returned {A} a.
Arguments Raised {A} r.

#[global] Instance result_ret : MRet result := λ A a, Returned a.

#[global] Instance result_bind : MBind result := λ A B k m,
  match m with
  | Returned a => k a
  | Raised r => Raised r
  end.

(** A computation on a state that returns or raises one of [raised]. *)
Definition MR (S A : Type) : Type := S → result A * S.

#[global] Instance MR_ret S : MRet (MR S) := λ A a s, (Returned a, s).

#[global] Instance MR_bind S : MBind (MR S) := λ A B k m s,
  match m s with
  | (Returned a, s') => k a s'
  | (Raised r, s') => (Raised r, s')
  end.

Definition lift_result {S A} (m : result A) : MR S A := λ s, (m, s).

Definition lift_M {S A} (m : M S A) : MR S A :=
  λ s, match m s with
       | (Ok a, s') => (Returned a, s')
       | (Raise e, s') => (Raised (Builtin e), s')
       end.

(** [j.get(key, dflt)]: only a [dict] has the method. *)
Definition json_get (j : json) (key : string) (dflt : json) : result json :=
  match j with
  | JObject fields => Returned (default dflt (fields !! key))
  | _ => Raised (AttributeError
                   ("'" +:+ type_name j +:+ "' object has no attribute 'get'"))
  end.

Fixpoint characters (s : string) : list string :=
  match s with
  | EmptyString => []
  | String c s' => String c EmptyString :: characters s'
  end.

(** The items of [for route in j]: the elements of a list, the keys of a
    [dict], the characters of a [str]. *)
Definition json_iter (j : json) : result (list json) :=
  match j with
  | JArray l => Returned l
  | JObject fields => Returned (JString <$> (map_to_list fields).*1)
  | JString s => Returned (JString <$> characters s)
  | _ => Raised (TypeError ("'" +:+ type_name j +:+ "' object is not iterable"))
  end.

(** Python's truth value of an [Optional[str]]: [None] and the empty
    string are false. *)
Definition truthy (o : option string) : option string :=
  match o with
  | Some s => if bool_decide (s = "") then None else Some s
  | None => None
  end.

Definition DEFAULT_AUTO_SYNC_VALUE : string := "local".

Section construction.
Context {Router Route SemanticRouter : Type}.
(** [json.loads], the constructor [Route(name=..., description=...,
    utterances=..., score_threshold=...)] and
    [SemanticRouter.from_json(path).routes], of the standard library and the
    semantic-router library. *)
Context (json_loads : string → result json).
Context (new_Route : json → json → json → json → result Route).
Context (from_json_routes : string → MR World (list Route)).
Context `{TemplateMiner miner}.

(** The body of the loop over the routes of the configuration. *)
Fixpoint append_routes (items : list json) : result (list Route) :=
  match items with
  | [] => mret []
  | route :: rest =>
      name ← json_get route "name" JNull;
      description ← json_get route "description" JNull;
      utterances ← json_get route "utterances" (JArray []);
      score_threshold ← json_get route "score_threshold" JNull;
      r ← new_Route name description utterances score_threshold;
      rs ← append_routes rest;
      mret (r :: rs)
  end.

Definition _load_auto_router_routes_from_config_json
    (auto_router_config : option string) : result (list Route) :=
  match auto_router_config with
  | None => Raised (ValueError "No auto router config provided")
  | Some config =>
      loaded_config ← json_loads config;
      routes ← json_get loaded_config "routes" (JArray []);
      items ← json_iter routes;
      append_routes items
  end.

Definition _load_semantic_routing_routes
    (auto_router_config_path auto_router_config : option string)
  : MR World (list Route) :=
  match truthy auto_router_config_path with
  | Some path => from_json_routes path
  | None =>
      match truthy auto_router_config with
      | Some _ =>
          lift_result (_load_auto_router_routes_from_config_json auto_router_config)
      | None => lift_result (Raised (ValueError "No router config provided"))
      end
  end.

(** [AutoRouter(model_name, default_model, embedding_model,
    litellm_router_instance, auto_router_config_path, auto_router_config)] *)
Definition __init__ (model_name default_model embedding_model : string)
    (litellm_router_instance : Router)
    (auto_router_config_path auto_router_config : option string)
  : MR World (t Router Route SemanticRouter (TemplateRouter.t miner)) :=
  loaded_routes ← _load_semantic_routing_routes auto_router_config_path
                     auto_router_config;
  template_routelayer ←
    lift_M (TemplateRouter.__init__
              (os_path_join "router_templates" (model_name +:+ "_template_router.bin"))
              (os_path_join "router_templates"
                 (model_name +:+ "_template_router_metadata.pkl"))
              None);
  mret {| model_name := model_name;
          auto_router_config_path := auto_router_config_path;
          auto_router_config := auto_router_config;
          auto_sync_value := DEFAULT_AUTO_SYNC_VALUE;
          loaded_routes := loaded_routes;
          routelayer := None;
          default_model := default_model;
          embedding_model := embedding_model;
          litellm_router_instance := litellm_router_instance;
          template_routelayer := Some template_routelayer |}.

End construction.

(** The object after [self.auto_router_config = config]. *)
Definition with_auto_router_config {Router Route SemanticRouter R : Type}
    (config : option string) (a : t Router Route SemanticRouter R)
  : t Router Route SemanticRouter R :=
  {| model_name := model_name a;
     auto_router_config_path := auto_router_config_path a;
     auto_router_config := config;
     auto_sync_value := auto_sync_value a;
     loaded_routes := loaded_routes a;
     routelayer := routelayer a;
     default_model := default_model a;
     embedding_model := embedding_model a;
     litellm_router_instance := litellm_router_instance a;
     template_routelayer := template_routelayer a |}.

(** ** auto_router.py: logging of successful completions *)

(** The Python values that the callback inspects: [None], strings, lists,
    dictionaries, and any other object. *)
#[warnings="-register-all"]
Inductive obj :=
  | ONone
  | OStr (s : string)
  | OList (l : list obj)
  | ODict (d : gmap string obj)
  | OOther (tag : string).

(** A choice of a response: with a [message] attribute, whose [content]
    is a string or [None], or without one. *)
Inductive choice :=
  | ChoiceWithMessage (content : option string)
  | ChoiceOther (tag : string).

(** A response object: its attribute [choices], when it has one. *)
Record response := { choices : option (list choice) }.

(** The argument [duration] by what the function does with it: a
    [timedelta], given by its [total_seconds()]; a value that [float()]
    converts; a value on which [float()] raises. *)
Inductive duration_arg (Float : Type) :=
  | Timedelta (total_seconds : Float)
  | Number (value : Float)
  | NotANumber.
Arguments Timedelta {Float} total_seconds.
Arguments Number {Float} value.
Arguments NotANumber {Float}.

(** The row handed to the database. *)
Record LogRecord (Timestamp Float : Type) := {
  record_prompt : obj;
  record_response : option string;
  record_duration : option Float;
  record_model : obj;
  record_created_at : Timestamp;
  record_cluster_id : option string
}.
Arguments record_prompt {Timestamp Float} _.
Arguments record_response {Timestamp Float} _.
Arguments record_duration {Timestamp Float} _.
Arguments record_model {Timestamp Float} _.
Arguments record_created_at {Timestamp Float} _.
Arguments record_cluster_id {Timestamp Float} _.

Section logging.
Context {Client Timestamp Float : Type}.
(** Python's [str] on the values above and on the values of a result
    dictionary; [get_prisma_client_or_throw] (with its import);
    [datetime.utcnow]; [prisma_client.db.litellm_autorouterlogs.create];
    and the difference [end_time - start_time] in seconds. *)
Context (str_obj : obj → string) (str_pyval : pyval → string).
Context (get_prisma_client_or_throw : string → M World Client).
Context (utcnow : M World Timestamp).
Context (create : Client → LogRecord Timestamp Float → M World unit).
Context (elapsed : Timestamp → Timestamp → Float).

(** The calls to the logger are left out. *)
Definition save_prompt_response_async (prompt : obj) (cluster_id : option string)
    (response : obj) (duration : option (duration_arg Float)) (model : obj)
    (prisma_client : option Client) (table_name : string) : M World bool :=
  try_except
    (prisma_client ← match prisma_client with
                      | None => get_prisma_client_or_throw "AutoRouter logging"
                      | Some client => mret client
                      end;
     let dur_value :=
       match duration with
       | None => None
       | Some (Timedelta seconds) => Some seconds
       | Some (Number value) => Some value
       | Some NotANumber => None
       end in
     created_at ← utcnow;
     let record :=
       {| record_prompt := prompt;
          record_response :=
            match response with ONone => None | _ => Some (str_obj response) end;
          record_duration := dur_value;
          record_model := model;
          record_created_at := created_at;
          record_cluster_id := cluster_id |} in
     create prisma_client record;;
     mret true)
    [ (Exception, λ e,
         print ("AutoRouter: failed to save prompt/response to DB: " +:+ exn_msg e);;
         mret false) ].

Section callback.
Context {Router Route SemanticRouter : Type}.
Context `{BaseTemplateRouter R}.

#[local] Abbreviation Self := (Sys (t Router Route SemanticRouter R)).

(** The prompt of a call: the content of the last message, or [None]. *)
Definition last_prompt (kwargs : gmap string obj) : obj :=
  match kwargs !! "messages" with
  | Some (OList messages) =>
      match last messages with
      | Some (ODict last_message) => default ONone (last_message !! "content")
      | Some last_message => OStr (str_obj last_message)
      | None => ONone
      end
  | _ => ONone
  end.

(** The text of the first choice of a response. *)
Definition first_choice_content (response_obj : option response) : obj :=
  match response_obj with
  | Some {| choices := Some (ChoiceWithMessage content :: _) |} =>
      match content with Some text => OStr text | None => ONone end
  | Some {| choices := Some (ChoiceOther tag :: _) |} => OStr (str_obj (OOther tag))
  | _ => ONone
  end.

Definition async_log_success_event (kwargs : gmap string obj)
    (response_obj : option response) (start_time end_time : option Timestamp)
  : M Self unit :=
  try_except
    (let prompt := last_prompt kwargs in
     let response_content := first_choice_content response_obj in
     trl ← gets (λ s, template_routelayer (self s));
     match trl, prompt with
     | Some r, ONone => mret tt
     | Some r, _ =>
         log_message ← on_template_routelayer r (add_log_message (str_obj prompt));
         let cluster_id := str_pyval (dict_get log_message "cluster_id" (PyStr "")) in
         dflt ← gets (λ s, default_model (self s));
         in_os (save_prompt_response_async prompt (Some cluster_id) response_content
                  (match end_time, start_time with
                   | Some e, Some b => Some (Timedelta (elapsed e b))
                   | _, _ => None
                   end)
                  (default (OStr dflt) (kwargs !! "model"))
                  None "auto_router_logs");;
         mret tt
     | None, _ => mret tt
     end)
    [ (Exception, λ _, mret tt) ].

End callback.

End logging.

End AutoRouter.

(** ** More of the environment *)

(** The read permission that a file has after it was opened for writing:
    the one it had, and a new file can be read. *)
Definition readable_after (w : World) (path : string) : bool :=
  match files w !! path with
  | Some (RegularFile r _ _) => r
  | _ => true
  end.

(** [open(path, 'rb')] finds no file: there is none at [path], and the
    path does not lead through a regular file. *)
Definition no_such_file (w : World) (path : string) : bool :=
  bool_decide (files w !! path = None)
  && match parent_error w path with
     | Some e => bool_decide (exn_type e = FileNotFoundError)
     | None => true
     end.

(** The lines of the summary for one cluster: its id, its template and its
    size, its metadata record when it has one that is not empty, and a
    rule. *)
Definition cluster_summary (str_template : list string → string)
    (str_dict : dict → string) (md : gmap Z dict) (c : LogCluster) : list string :=
  [ "Cluster ID: " +:+ pretty (cluster_id c);
    "Template: " +:+ str_template (get_template c);
    "Size: " +:+ pretty (size c) ]
  ++ match md !! cluster_id c with
     | Some record =>
         if decide (record = ∅) then [] else [ "Metadata: " +:+ str_dict record ]
     | None => []
     end
  ++ [ TemplateRouter.string_repeat "-" 60 ].

(** A string of whitespace characters only. *)
Fixpoint all_space (s : string) : bool :=
  match s with
  | EmptyString => true
  | String c s' => isspace c && all_space s'
  end.

(** A string without the path separator. *)
Fixpoint no_slash (s : string) : bool :=
  match s with
  | EmptyString => true
  | String c s' => negb (bool_decide (String c EmptyString = "/")) && no_slash s'
  end.

(** ** Concrete states, for the examples below *)

(** The engine after the first two messages of the end-to-end scenario. *)
Definition orders_engine : Drain.t :=
  (Drain.insert "user order 456 failed"
     (Drain.insert "user order 123 failed" (Drain.empty (1#2))).2).2.

(** A router with the default file names of [TemplateRouter.__init__]. *)
Definition router_of (tm : Drain.t) (md : gmap Z dict) : TemplateRouter.t Drain.t :=
  {| TemplateRouter.persistence_handler :=
       {| TemplateRouter.file_path := "prompt_templates.bin" |};
     TemplateRouter.metadata_file := "cluster_metadata.pkl";
     TemplateRouter.template_miner := tm;
     TemplateRouter._cluster_metadata := md |}.

Definition empty_world : World := {| files := ∅; stdout := [] |}.

(** A world in which the metadata file cannot be written. *)
Definition readonly_world : World :=
  {| files := {[ "cluster_metadata.pkl" := RegularFile true false (Garbage "") ]};
     stdout := [] |}.

(** A world with one regular file, and no directory. *)
Definition blocked_world : World :=
  {| files := {[ "notes.txt" := RegularFile true true (Garbage "") ]};
     stdout := [] |}.

(** A world in which the metadata file does not unpickle. *)
Definition corrupt_world : World :=
  {| files := {[ "cluster_metadata.pkl" := RegularFile true true (Garbage "xx") ]};
     stdout := [] |}.

(** An [AutoRouter] whose template router is [r], with a semantic route
    layer already in place, and the constructor of that layer. *)
Definition auto_router_of (r : TemplateRouter.t Drain.t)
  : AutoRouter.t unit unit unit (TemplateRouter.t Drain.t) :=
  {| AutoRouter.model_name := "auto_router1";
     AutoRouter.auto_router_config_path := None;
     AutoRouter.auto_router_config := Some "{}";
     AutoRouter.auto_sync_value := "local";
     AutoRouter.loaded_routes := [];
     AutoRouter.routelayer := Some tt;
     AutoRouter.default_model := "gpt-4o-mini";
     AutoRouter.embedding_model := "text-embedding-3-small";
     AutoRouter.litellm_router_instance := tt;
     AutoRouter.template_routelayer := Some r |}.

Definition new_route_layer (routes : list unit) (instance : unit)
    (embedding auto_sync : string) : M World unit := mret tt.

(** An [AutoRouter] as the constructor leaves it: no semantic route layer
    yet. *)
Definition fresh_auto_router_of (r : TemplateRouter.t Drain.t)
  : AutoRouter.t unit unit unit (TemplateRouter.t Drain.t) :=
  {| AutoRouter.model_name := "auto_router1";
     AutoRouter.auto_router_config_path := None;
     AutoRouter.auto_router_config := Some "{}";
     AutoRouter.auto_sync_value := "local";
     AutoRouter.loaded_routes := [];
     AutoRouter.routelayer := None;
     AutoRouter.default_model := "gpt-4o-mini";
     AutoRouter.embedding_model := "text-embedding-3-small";
     AutoRouter.litellm_router_instance := tt;
     AutoRouter.template_routelayer := Some r |}.

(** Stand-ins for the library calls of the construction: a parser that
    knows the empty object, a route constructor that always returns, and a
    file loader without routes. *)
Definition loads_empty_object (config : string) : AutoRouter.result AutoRouter.json :=
  if bool_decide (config = "{}")
  then AutoRouter.Returned (AutoRouter.JObject ∅)
  else AutoRouter.Raised (AutoRouter.ValueError "Expecting value").

Definition unit_route (name description utterances score_threshold : AutoRouter.json)
  : AutoRouter.result unit := AutoRouter.Returned tt.

Definition no_routes_from_json (path : string) : AutoRouter.MR World (list unit) :=
  mret [].

(** The router that the constructor returns for a model name and the
    inline configuration of the empty object, in a world without files. *)
Definition fresh_auto_router_of_name (model_name : string)
  : AutoRouter.t unit unit unit (TemplateRouter.t Drain.t) :=
  {| AutoRouter.model_name := model_name;
     AutoRouter.auto_router_config_path := None;
     AutoRouter.auto_router_config := Some "{}";
     AutoRouter.auto_sync_value := "local";
     AutoRouter.loaded_routes := [];
     AutoRouter.routelayer := None;
     AutoRouter.default_model := "gpt-4o-mini";
     AutoRouter.embedding_model := "e";
     AutoRouter.litellm_router_instance := tt;
     AutoRouter.template_routelayer :=
       Some {| TemplateRouter.persistence_handler :=
                 {| TemplateRouter.file_path :=
                      AutoRouter.os_path_join "router_templates"
                        (model_name +:+ "_template_router.bin") |};
               TemplateRouter.metadata_file :=
                 AutoRouter.os_path_join "router_templates"
                   (model_name +:+ "_template_router_metadata.pkl");
               TemplateRouter.template_miner := Drain.empty (1#2);
               TemplateRouter._cluster_metadata := ∅ |} |}.

(** Stand-ins for the library calls of the logging callback: [str] on
    strings and integers, a client that is there, a clock at 0, a database
    that is down, and the difference of two times. *)
Definition str_of_obj (o : AutoRouter.obj) : string :=
  match o with
  | AutoRouter.OStr s => s
  | AutoRouter.ONone => "None"
  | AutoRouter.OOther tag => tag
  | _ => "[...]"
  end.

Definition str_of_pyval (v : pyval) : string :=
  match v with
  | PyInt z => pretty z
  | PyStr s => s
  | PyNone => "None"
  | PyBool true => "True"
  | PyBool false => "False"
  | PyList _ => "[...]"
  end.

Definition client_at_hand (purpose : string) : M World unit := mret tt.

Definition clock_at_zero : M World Z := mret 0.

Definition database_down (client : unit) (record : AutoRouter.LogRecord Z Z)
  : M World unit := raise OSError "connection refused".

Definition seconds_between (end_time start_time : Z) : Z := end_time - start_time.

(** A stand-in for the parser on a text whose object has two entries under
    [routes]: an empty object, and a number. *)
Definition loads_two_entries (config : string) : AutoRouter.result AutoRouter.json :=
  AutoRouter.Returned
    (AutoRouter.JObject
       {[ "routes" := AutoRouter.JArray [AutoRouter.JObject ∅; AutoRouter.JInt 7] ]}).

(** Stand-ins for the parser and the route constructor on a configuration
    with two routes: the parser returns an object whose first route has a
    name and an utterance and whose second route is empty, and a route is
    the pair of its name and its utterances. *)
Definition loads_two_routes (config : string) : AutoRouter.result AutoRouter.json :=
  AutoRouter.Returned
    (AutoRouter.JObject
       {[ "routes" :=
            AutoRouter.JArray
              [ AutoRouter.JObject
                  {[ "name" := AutoRouter.JString "billing";
                     "utterances" := AutoRouter.JArray [AutoRouter.JString "refund"] ]};
                AutoRouter.JObject ∅ ] ]}).

Definition named_route (name description utterances score_threshold : AutoRouter.json)
  : AutoRouter.result (AutoRouter.json * AutoRouter.json) :=
  AutoRouter.Returned (name, utterances).

(** The engine after the two order messages and a login message. *)
Definition two_shapes_engine : Drain.t := (Drain.insert "login ok" orders_engine).2.

(** * Properties *)

(** Unfold the monad's operations in the goal. *)
Ltac run :=
  unfold in_os, mbind, mret, M_bind, M_ret, gets, modify, raise, zoom; simpl.

(** ** The monad *)

Lemma bind_ret_r {S A} (m : M S A) (s : S) : (x ← m; mret x) s = m s.
Proof. run. destruct (m s) as [[a|e] s']; reflexivity. Qed.

Lemma dict_get_insert_eq `{Countable K} {V} (d : gmap K V) (k : K) (v dflt : V) :
  dict_get (<[k := v]> d) k dflt = v.
Proof. unfold dict_get. by rewrite lookup_insert_eq. Qed.

(** ** The engine of the specification on the end-to-end scenario *)

Example tokenize_order :
  Drain.tokenize "user order 123 failed" = ["user"; "order"; "123"; "failed"].
Proof. reflexivity. Qed.

Example strip_spaces : strip "  user order  " = "user order".
Proof. reflexivity. Qed.

Example default_name_7 : default_name 7 = "cluster_7".
Proof. reflexivity. Qed.

Example similarity_three_of_four :
  Drain.similarity [Tok "user"; Tok "order"; Tok "123"; Tok "failed"]
                   ["user"; "order"; "456"; "failed"] = (3 # 4)%Q.
Proof. reflexivity. Qed.

(** ** [TemplateRouter.match] *)

Section match_properties.
Context `{TemplateMiner miner}.

#[local] Abbreviation Self := (Sys (TemplateRouter.t miner)).

(** The dictionary [match] builds for the cluster [c]. *)
Lemma match_run (message : string) (s : Self) :
  TemplateRouter.match_ message s =
  match miner_match (strip message) (TemplateRouter.template_miner (self s)) with
  | (Ok (Some c), tm') =>
      let md := TemplateRouter._cluster_metadata (self s) in
      (Ok (Some
         {[ "cluster_id" := PyInt (cluster_id c);
            "template" := PyList (PyStr <$> get_template c);
            "size" := PyInt (size c);
            "name" := dict_get (dict_get md (cluster_id c) ∅) "name"
                        (PyStr (default_name (cluster_id c)));
            "target_model" := dict_get (dict_get md (cluster_id c) ∅)
                                "target_model" PyNone ]}),
       {| self := TemplateRouter.with_template_miner tm' (self s); os := os s |})
  | (Ok None, tm') =>
      (Ok None, {| self := TemplateRouter.with_template_miner tm' (self s); os := os s |})
  | (Raise e, tm') =>
      (Raise e, {| self := TemplateRouter.with_template_miner tm' (self s); os := os s |})
  end.
Proof.
  unfold TemplateRouter.match_, TemplateRouter.on_template_miner. run.
  destruct (miner_match _ _) as [[[c|]|e] tm']; reflexivity.
Qed.

Lemma with_template_miner_id (r : TemplateRouter.t miner) :
  TemplateRouter.with_template_miner (TemplateRouter.template_miner r) r = r.
Proof. destruct r; reflexivity. Qed.

(** C2: when the engine's match succeeds, [match] returns the cluster's id,
    template and size, the name stored in the cluster's metadata record or
    else ["cluster_<id>"], and the stored target model or else [None]; when
    the engine finds no match, [match] returns [None]. *)
Theorem C2_match_overlays_metadata (message : string) (s : Self) :
  let md := TemplateRouter._cluster_metadata (self s) in
  match miner_match (strip message) (TemplateRouter.template_miner (self s)) with
  | (Ok (Some c), _) =>
      ∃ result : dict,
        (TemplateRouter.match_ message s).1 = Ok (Some result)
        ∧ result !! "cluster_id" = Some (PyInt (cluster_id c))
        ∧ result !! "template" = Some (PyList (PyStr <$> get_template c))
        ∧ result !! "size" = Some (PyInt (size c))
        ∧ result !! "name" =
            Some (match md !! cluster_id c with
                  | Some record =>
                      match record !! "name" with
                      | Some name => name
                      | None => PyStr ("cluster_" +:+ pretty (cluster_id c))
                      end
                  | None => PyStr ("cluster_" +:+ pretty (cluster_id c))
                  end)
        ∧ result !! "target_model" =
            Some (match md !! cluster_id c with
                  | Some record =>
                      match record !! "target_model" with
                      | Some target => target
                      | None => PyNone
                      end
                  | None => PyNone
                  end)
        ∧ dom result = {[ "cluster_id"; "template"; "size"; "name"; "target_model" ]}
  | (Ok None, _) => (TemplateRouter.match_ message s).1 = Ok None
  | (Raise e, _) => (TemplateRouter.match_ message s).1 = Raise e
  end.
Proof.
  intros md. rewrite match_run.
  destruct (miner_match _ _) as [[[c|]|e] tm']; simpl; try reflexivity.
  eexists. split; [reflexivity|].
  repeat split; try (by simplify_map_eq).
  - simplify_map_eq. f_equal. unfold dict_get, default_name. fold md.
    destruct (md !! cluster_id c) as [record|]; simpl; [|by rewrite lookup_empty].
    by destruct (record !! "name").
  - simplify_map_eq. f_equal. unfold dict_get. fold md.
    destruct (md !! cluster_id c) as [record|]; simpl; [|by rewrite lookup_empty].
    by destruct (record !! "target_model").
Qed.

(** C4: when the engine's match is read-only, two calls of [match] in a row
    return the same result, and each leaves the whole state (the clusters,
    their sizes and templates, and the metadata overlay) as it was. *)
Theorem C4_match_twice (message : string) (s : Self) :
  (∀ (m : string) (tm : miner), (miner_match m tm).2 = tm) →
  let first := TemplateRouter.match_ message s in
  let second := TemplateRouter.match_ message first.2 in
  first.1 = second.1 ∧ first.2 = s ∧ second.2 = s.
Proof.
  intros Hro.
  assert (Hframe : ∀ s0 : Self, (TemplateRouter.match_ message s0).2 = s0).
  { intros s0. rewrite match_run.
    pose proof (Hro (strip message) (TemplateRouter.template_miner (self s0))) as Htm.
    destruct (miner_match _ _) as [[[c|]|e] tm']; simpl in *; subst tm';
      rewrite with_template_miner_id; by destruct s0. }
  simpl. rewrite !Hframe. done.
Qed.

(** C9: calling the router as a function is calling [match]. *)
Theorem C9_call_is_match (text : string) (s : Self) :
  TemplateRouter.__call__ text s = TemplateRouter.match_ text s.
Proof. unfold TemplateRouter.__call__. apply bind_ret_r. Qed.

End match_properties.

(** [C4_match_twice] on the engine of the specification, whose match is
    read-only, after two order messages. *)
Lemma C4_match_twice_witness :
  let s := {| self := router_of orders_engine ∅; os := empty_world |} in
  let first := TemplateRouter.match_ "user order 789 failed" s in
  let second := TemplateRouter.match_ "user order 789 failed" first.2 in
  first.1 = second.1 ∧ first.2 = s ∧ second.2 = s.
Proof.
  exact (C4_match_twice "user order 789 failed"
           {| self := router_of orders_engine ∅; os := empty_world |}
           (λ _ _, eq_refl)).
Defined.

(** ** The end-to-end scenario *)

(** C1: from the empty engine with threshold 0.5, the three order messages
    create cluster 0 with the first message's tokens, then generalize its
    third position to the wildcard, then match it unchanged; in the end
    there is one cluster, of size 3, with template user order * failed. *)
Theorem C1_three_orders (ph : TemplateRouter.FilePersistence) (mf : string)
    (md : gmap Z dict) (w : World) :
  let s0 : Sys (TemplateRouter.t Drain.t) :=
    {| self := {| TemplateRouter.persistence_handler := ph;
                  TemplateRouter.metadata_file := mf;
                  TemplateRouter.template_miner := Drain.empty (1#2);
                  TemplateRouter._cluster_metadata := md |};
       os := w |} in
  let step1 := TemplateRouter.add_log_message "user order 123 failed" s0 in
  let step2 := TemplateRouter.add_log_message "user order 456 failed" step1.2 in
  let step3 := TemplateRouter.add_log_message "user order 789 failed" step2.2 in
  step1.1 = Ok {[ "cluster_id" := PyInt 0;
                  "template_mined" :=
                    PyList [PyStr "user"; PyStr "order"; PyStr "123"; PyStr "failed"];
                  "change_type" := PyStr "cluster_created" ]}
  ∧ step2.1 = Ok {[ "cluster_id" := PyInt 0;
                    "template_mined" :=
                      PyList [PyStr "user"; PyStr "order"; PyStr "*"; PyStr "failed"];
                    "change_type" := PyStr "cluster_template_changed" ]}
  ∧ step3.1 = Ok {[ "cluster_id" := PyInt 0;
                    "template_mined" :=
                      PyList [PyStr "user"; PyStr "order"; PyStr "*"; PyStr "failed"];
                    "change_type" := PyStr "none" ]}
  ∧ miner_clusters (TemplateRouter.template_miner (self step3.2)) =
      [ {| cluster_id := 0;
           log_template_tokens := [Tok "user"; Tok "order"; Wildcard; Tok "failed"];
           size := 3 |} ]
  ∧ (TemplateRouter.get_all_templates step3.2).1 =
      Ok [ {[ "cluster_id" := PyInt 0;
              "template" :=
                PyList [PyStr "user"; PyStr "order"; PyStr "*"; PyStr "failed"];
              "size" := PyInt 3;
              "name" := dict_get (dict_get md 0 ∅) "name" (PyStr "cluster_0") ]} ].
Proof. intros s0 step1 step2 step3. repeat split; reflexivity. Qed.

(** ** Paths and the files on them *)

Lemma string_app_cons (c : Ascii.ascii) (s t : string) :
  String c s +:+ t = String c (s +:+ t).
Proof. reflexivity. Qed.

Lemma string_app_nil_r (s : string) : s +:+ "" = s.
Proof. induction s as [|c s IH]; [done|]. by rewrite string_app_cons, IH. Qed.

Lemma string_app_assoc (a b c : string) : (a +:+ b) +:+ c = a +:+ (b +:+ c).
Proof. induction a as [|x a IH]; [done|]. by rewrite !string_app_cons, IH. Qed.

Lemma string_length_app (a b : string) :
  String.length (a +:+ b) = (String.length a + String.length b)%nat.
Proof. induction a as [|c a IH]; [done|]. rewrite string_app_cons. simpl. by rewrite IH. Qed.

(** A directory that a path leads through is shorter than the path. *)
Lemma ancestors_from_shorter (prefix rest d : string) :
  d ∈ ancestors_from prefix rest →
  (String.length d < String.length prefix + String.length rest)%nat.
Proof.
  revert prefix. induction rest as [|c rest IH]; intros prefix; simpl.
  { by intros ?%elem_of_nil. }
  assert (Hinner : d ∈ ancestors_from (prefix +:+ String c "") rest →
                   (String.length d < String.length prefix + S (String.length rest))%nat).
  { intros Hd. apply IH in Hd. rewrite string_length_app in Hd. simpl in Hd. lia. }
  destruct (bool_decide _ && bool_decide _); [|done].
  intros [->|Hd]%elem_of_cons; [lia|by apply Hinner].
Qed.

(** A path is none of the directories it leads through. *)
Lemma ancestors_ne (path d : string) : d ∈ ancestors path → d ≠ path.
Proof.
  intros Hd%ancestors_from_shorter ->. simpl in Hd. lia.
Qed.

Lemma ancestors_from_no_slash (prefix rest : string) :
  no_slash rest = true → ancestors_from prefix rest = [].
Proof.
  revert prefix. induction rest as [|c rest IH]; intros prefix; simpl; [done|].
  destruct (bool_decide (String c "" = "/")); simpl; [done|]. apply IH.
Qed.

Lemma ancestors_from_app (prefix d rest : string) :
  no_slash d = true →
  ancestors_from prefix (d +:+ rest) = ancestors_from (prefix +:+ d) rest.
Proof.
  revert prefix. induction d as [|c d IH]; intros prefix; simpl.
  { by rewrite string_app_nil_r. }
  destruct (bool_decide (String c "" = "/")); simpl; [done|].
  intros Hd. rewrite IH by done. by rewrite string_app_assoc.
Qed.

(** A file name joined to a directory name leads through that directory
    only. *)
Lemma ancestors_join (d file : string) :
  no_slash d = true → no_slash file = true → d ≠ "" →
  ancestors (d +:+ "/" +:+ file) = [d].
Proof.
  intros Hd Hfile Hne. unfold ancestors. rewrite ancestors_from_app by done.
  change ("" +:+ d) with d. rewrite string_app_cons. simpl.
  rewrite bool_decide_true by done. simpl.
  by rewrite ancestors_from_no_slash.
Qed.

(** The walk looks at the files on the way only. *)
Lemma walk_error_ext (w w' : World) (path : string) (dirs : list string) :
  (∀ d, d ∈ dirs → files w' !! d = files w !! d) →
  walk_error w' path dirs = walk_error w path dirs.
Proof.
  induction dirs as [|d dirs IH]; intros Hsame; simpl; [done|].
  rewrite (Hsame d) by apply list_elem_of_here.
  rewrite IH; [done|]. intros d' Hd'. apply Hsame. by apply list_elem_of_further.
Qed.

Lemma walk_error_class (w : World) (path : string) (dirs : list string) (e : exn) :
  walk_error w path dirs = Some e →
  exn_type e = NotADirectoryError ∨ exn_type e = FileNotFoundError.
Proof.
  induction dirs as [|d dirs IH]; simpl; [done|].
  destruct (files w !! d) as [[|? ? ?]|]; [done| |]; intros [= <-]; by eauto.
Qed.

(** The errors of reaching a directory are [OSError]s. *)
Lemma parent_error_class (w : World) (path : string) (e : exn) :
  parent_error w path = Some e →
  issubclass (exn_type e) Exception = true
  ∧ issubclass (exn_type e) FileNotFoundError = bool_decide (exn_type e = FileNotFoundError).
Proof.
  intros [Hclass|Hclass]%walk_error_class; by rewrite Hclass.
Qed.

(** Whether the directory of a path can be reached does not depend on what
    is at the path, nor on the output. *)
Lemma parent_error_insert (w : World) (path : string) (n : node) (out : list string) :
  parent_error {| files := <[path := n]> (files w); stdout := out |} path
    = parent_error w path.
Proof.
  apply walk_error_ext. intros d Hd. simpl.
  apply lookup_insert_ne. by apply not_eq_sym, ancestors_ne.
Qed.

Lemma parent_error_stdout (w : World) (path : string) (out : list string) :
  parent_error {| files := files w; stdout := out |} path = parent_error w path.
Proof. by apply walk_error_ext. Qed.

(** The directory of a file name joined to a directory name. *)
Lemma parent_error_join (w : World) (d file : string) :
  no_slash d = true → no_slash file = true → d ≠ "" →
  parent_error w (d +:+ "/" +:+ file) =
    match files w !! d with
    | Some Directory => None
    | Some (RegularFile _ _ _) =>
        Some {| exn_type := NotADirectoryError;
                exn_msg := "[Errno 20] Not a directory: " +:+ quoted (d +:+ "/" +:+ file) |}
    | None =>
        Some {| exn_type := FileNotFoundError;
                exn_msg := "[Errno 2] No such file or directory: "
                           +:+ quoted (d +:+ "/" +:+ file) |}
    end.
Proof.
  intros Hd Hfile Hne. unfold parent_error. rewrite ancestors_join by done. simpl.
  by destruct (files w !! d) as [[|? ? ?]|].
Qed.

(** ** The metadata overlay and its file *)

Section metadata_properties.
Context `{TemplateMiner miner}.

#[local] Abbreviation Self := (Sys (TemplateRouter.t miner)).

Lemma set_cluster_metadata_run (cluster_id : Z) (name : string) (kwargs : dict)
    (s : Self) :
  let md := TemplateRouter._cluster_metadata (self s) in
  let old := default ∅ (md !! cluster_id) in
  let named := if bool_decide (name ≠ "") then <["name" := PyStr name]> old else old in
  TemplateRouter.set_cluster_metadata cluster_id name kwargs s =
  TemplateRouter._save_metadata
    {| self := TemplateRouter.with_metadata (<[cluster_id := kwargs ∪ named]> md) (self s);
       os := os s |}.
Proof.
  intros md old named.
  unfold TemplateRouter.set_cluster_metadata, TemplateRouter.getitem,
    TemplateRouter.setitem, TemplateRouter.assign_metadata. run.
  destruct s as [[ph mf tm md0] w]; simpl in *. subst named old md.
  unfold TemplateRouter.with_metadata; simpl.
  case_bool_decide as Hdom.
  - apply not_elem_of_dom in Hdom. rewrite Hdom. simpl.
    case_bool_decide; simpl; rewrite ?lookup_insert_eq; simpl;
      rewrite ?lookup_insert_eq; simpl; rewrite ?insert_insert_eq; done.
  - apply elem_of_dom in Hdom as [record Hrecord].
    rewrite Hrecord. simpl.
    case_bool_decide; simpl; rewrite ?Hrecord; simpl;
      rewrite ?lookup_insert_eq; simpl; rewrite ?insert_insert_eq; done.
Qed.

(** Opening for writing either truncates the file and nothing else, or
    raises an [OSError] and changes nothing. *)
Lemma open_wb_outcome (path : string) (w : World) :
  (∃ r, open_wb path w = (Ok tt, set_file path (RegularFile r true (Garbage "")) w))
  ∨ (∃ e, open_wb path w = (Raise e, w) ∧ issubclass (exn_type e) Exception = true).
Proof.
  unfold open_wb, raise.
  destruct (parent_error w path) as [e|] eqn:Hparent.
  { right. exists e. split; [done|]. by apply (parent_error_class w path). }
  destruct (files w !! path) as [[|r [] data]|];
    first [ by left; eexists | by right; eexists ].
Qed.

Lemma save_metadata_ok (s : Self) (w1 : World) :
  let path := TemplateRouter.metadata_file (self s) in
  open_wb path (os s) = (Ok tt, w1) →
  ∃ r, TemplateRouter._save_metadata s =
         (Ok tt,
          {| self := self s;
             os := set_file path
                     (RegularFile r true
                        (PickledMetadata (TemplateRouter._cluster_metadata (self s))))
                     (os s) |}).
Proof.
  intros path Hopen.
  destruct (open_wb_outcome path (os s)) as [[r Hr]|[e [He _]]];
    [|rewrite He in Hopen; discriminate].
  exists r. unfold TemplateRouter._save_metadata, try_except, pickle_dump. run.
  fold path. rewrite Hr. simpl. rewrite lookup_insert_eq.
  unfold set_file. simpl. by rewrite insert_insert_eq.
Qed.

Lemma save_metadata_failed (s : Self) (e : exn) (w1 : World) :
  let path := TemplateRouter.metadata_file (self s) in
  open_wb path (os s) = (Raise e, w1) →
  TemplateRouter._save_metadata s =
    (Ok tt,
     {| self := self s;
        os := {| files := files (os s);
                 stdout := stdout (os s)
                           ++ ["Error: Could not save metadata to " +:+ path
                               +:+ ": " +:+ exn_msg e] |} |}).
Proof.
  intros path Hopen.
  destruct (open_wb_outcome path (os s)) as [[r Hr]|[e' [He Hsub]]];
    [rewrite Hr in Hopen; discriminate|].
  rewrite He in Hopen. injection Hopen as -> _.
  unfold TemplateRouter._save_metadata, try_except, print. run.
  fold path. rewrite He. simpl. by rewrite Hsub.
Qed.

(** The record that [set_cluster_metadata] leaves for its cluster id. *)
Lemma merged_record (name : string) (kwargs old : dict) :
  let named := if bool_decide (name ≠ "") then <["name" := PyStr name]> old else old in
  let record := kwargs ∪ named in
  (∀ k v, kwargs !! k = Some v → record !! k = Some v)
  ∧ (∀ k, kwargs !! k = None → k ≠ "name" → record !! k = old !! k)
  ∧ (kwargs !! "name" = None →
       (name ≠ "" → record !! "name" = Some (PyStr name))
       ∧ (name = "" → record !! "name" = old !! "name")).
Proof.
  intros named record. subst record named. repeat split.
  - intros k v Hk. by apply lookup_union_Some_l.
  - intros k Hk Hne. rewrite lookup_union_r by done.
    case_bool_decide; [by rewrite lookup_insert_ne|done].
  - intros Hname. rewrite lookup_union_r by done.
    rewrite bool_decide_true by done. by rewrite lookup_insert_eq.
  - intros ->. rewrite lookup_union_r by done.
    by rewrite bool_decide_false by (intros ?; done).
Qed.

(** C3: [set_cluster_metadata] leaves a record for the cluster id (created
    when absent); the record's name is the given name when that is not
    empty, and the stored one otherwise; the keyword arguments overwrite
    their keys and the other keys stay; the other records stay; and when the
    metadata file can be opened for writing it then holds the whole
    overlay. *)
Theorem C3_set_cluster_metadata (cluster_id : Z) (name : string) (kwargs : dict)
    (s : Self) :
  kwargs !! "name" = None →
  let md := TemplateRouter._cluster_metadata (self s) in
  let old := default ∅ (md !! cluster_id) in
  let path := TemplateRouter.metadata_file (self s) in
  ∃ (record : dict) (w' : World),
    TemplateRouter.set_cluster_metadata cluster_id name kwargs s =
      (Ok tt,
       {| self := TemplateRouter.with_metadata (<[cluster_id := record]> md) (self s);
          os := w' |})
    ∧ (name ≠ "" → record !! "name" = Some (PyStr name))
    ∧ (name = "" → record !! "name" = old !! "name")
    ∧ (∀ k v, kwargs !! k = Some v → record !! k = Some v)
    ∧ (∀ k, kwargs !! k = None → k ≠ "name" → record !! k = old !! k)
    ∧ (∀ w1, open_wb path (os s) = (Ok tt, w1) →
         ∃ r, w' = set_file path
                     (RegularFile r true (PickledMetadata (<[cluster_id := record]> md)))
                     (os s)).
Proof.
  intros Hname md old path.
  rewrite set_cluster_metadata_run. fold md old.
  set (named := if bool_decide (name ≠ "") then <["name" := PyStr name]> old else old).
  set (s1 := {| self := TemplateRouter.with_metadata _ (self s); os := os s |}).
  destruct (merged_record name kwargs old) as (Hkw & Hother & Hnm).
  destruct (Hnm Hname) as [Hset Hkeep]. fold named in Hkw, Hother, Hset, Hkeep.
  exists (kwargs ∪ named).
  destruct (open_wb_outcome path (os s)) as [[r Hr]|[e [He _]]].
  - destruct (save_metadata_ok s1 _ Hr) as [r' Hsave].
    eexists. split; [exact Hsave|]. repeat split; try done.
    intros w1 _. by exists r'.
  - rewrite (save_metadata_failed s1 e _ He).
    eexists. split; [reflexivity|]. repeat split; try done.
    intros w1 Hw1. rewrite He in Hw1. discriminate.
Qed.

(** C7: when the file cannot be opened for writing, [set_cluster_metadata]
    still returns, the overlay holds the update, an error line is printed,
    the files stay as they were, and a later [match] of that cluster reads
    the new record. *)
Theorem C7_save_failure_keeps_update (cluster_id0 : Z) (name : string)
    (kwargs : dict) (s : Self) (e : exn) (w1 : World) :
  let md := TemplateRouter._cluster_metadata (self s) in
  let old := default ∅ (md !! cluster_id0) in
  let path := TemplateRouter.metadata_file (self s) in
  let record :=
    kwargs ∪ (if bool_decide (name ≠ "") then <["name" := PyStr name]> old else old) in
  open_wb path (os s) = (Raise e, w1) →
  ∃ s' : Self,
    TemplateRouter.set_cluster_metadata cluster_id0 name kwargs s = (Ok tt, s')
    ∧ TemplateRouter._cluster_metadata (self s') = <[cluster_id0 := record]> md
    ∧ TemplateRouter._cluster_metadata (self s') !! cluster_id0 = Some record
    ∧ files (os s') = files (os s)
    ∧ stdout (os s') =
        stdout (os s) ++ ["Error: Could not save metadata to " +:+ path
                          +:+ ": " +:+ exn_msg e]
    ∧ ∀ message c tm',
        miner_match (strip message) (TemplateRouter.template_miner (self s))
          = (Ok (Some c), tm') →
        cluster_id c = cluster_id0 →
        ∃ result : dict,
          (TemplateRouter.match_ message s').1 = Ok (Some result)
          ∧ result !! "name" = Some (dict_get record "name" (PyStr (default_name cluster_id0)))
          ∧ result !! "target_model" = Some (dict_get record "target_model" PyNone).
Proof.
  intros md old path record Hopen.
  rewrite set_cluster_metadata_run. fold md old record.
  set (s1 := {| self := TemplateRouter.with_metadata _ (self s); os := os s |}).
  rewrite (save_metadata_failed s1 e w1 Hopen).
  eexists. split; [reflexivity|]. simpl.
  repeat split; try done.
  - by rewrite lookup_insert_eq.
  - intros message c tm' Hmatch Hid.
    rewrite match_run. simpl. rewrite Hmatch. simpl.
    eexists. split; [reflexivity|].
    rewrite Hid, !dict_get_insert_eq.
    split; by simplify_map_eq.
Qed.

(** C8: [set_cluster_metadata] accepts every integer as cluster id,
    whatever clusters the engine has: it returns, leaves the engine as it
    was, and the overlay then has a record for that id that holds the
    keyword arguments and, when one was given, the name. *)
Theorem C8_any_cluster_id_accepted (cluster_id : Z) (name : string)
    (kwargs : dict) (s : Self) :
  ∃ (record : dict) (s' : Self),
    TemplateRouter.set_cluster_metadata cluster_id name kwargs s = (Ok tt, s')
    ∧ TemplateRouter.template_miner (self s') = TemplateRouter.template_miner (self s)
    ∧ TemplateRouter._cluster_metadata (self s') !! cluster_id = Some record
    ∧ kwargs ⊆ record
    ∧ (name ≠ "" ∧ kwargs !! "name" = None → record !! "name" = Some (PyStr name)).
Proof.
  rewrite set_cluster_metadata_run.
  set (md := TemplateRouter._cluster_metadata (self s)).
  set (old := default ∅ (md !! cluster_id)).
  set (named := if bool_decide (name ≠ "") then <["name" := PyStr name]> old else old).
  set (s1 := {| self := TemplateRouter.with_metadata _ (self s); os := os s |}).
  destruct (merged_record name kwargs old) as (Hkw & _ & Hnm). fold named in Hkw, Hnm.
  exists (kwargs ∪ named).
  assert (∃ w', TemplateRouter._save_metadata s1 = (Ok tt, {| self := self s1; os := w' |}))
    as [w' Hsave].
  { destruct (open_wb_outcome (TemplateRouter.metadata_file (self s1)) (os s1))
      as [[r Hr]|[e [He _]]].
    - destruct (save_metadata_ok s1 _ Hr) as [r' ->]. by eexists.
    - rewrite (save_metadata_failed s1 e _ He). by eexists. }
  eexists. split; [exact Hsave|]. simpl.
  repeat split.
  - by rewrite lookup_insert_eq.
  - apply map_union_subseteq_l.
  - intros [Hne Hname]. by apply Hnm.
Qed.

(** What opening for reading does: it returns the content of a regular
    file that may be read, and raises an [OSError] otherwise, which is a
    [FileNotFoundError] exactly when there is no such file. *)
Lemma open_rb_outcome (path : string) (w : World) :
  match files w !! path with
  | Some (RegularFile true _ data) => open_rb path w = (Ok data, w)
  | _ =>
      ∃ e, open_rb path w = (Raise e, w)
        ∧ issubclass (exn_type e) Exception = true
        ∧ issubclass (exn_type e) FileNotFoundError = no_such_file w path
  end.
Proof.
  unfold open_rb, no_such_file, raise.
  destruct (files w !! path) as [[|[] wr data]|]; simpl; try (by eexists).
  destruct (parent_error w path) as [e|] eqn:Hparent; [|by eexists].
  exists e. split; [done|]. by apply (parent_error_class w path).
Qed.

(** What [_load_metadata] does when the file cannot be opened. *)
Lemma load_metadata_not_opened (s : Self) (e : exn) :
  let path := TemplateRouter.metadata_file (self s) in
  open_rb path (os s) = (Raise e, os s) →
  issubclass (exn_type e) Exception = true →
  TemplateRouter._load_metadata s =
    (Ok tt,
     {| self := TemplateRouter.with_metadata ∅ (self s);
        os := if issubclass (exn_type e) FileNotFoundError
              then os s
              else {| files := files (os s);
                      stdout := stdout (os s)
                                ++ ["Warning: Could not load metadata from " +:+ path
                                    +:+ ": " +:+ exn_msg e] |} |}).
Proof.
  intros path Hopen Hexn.
  unfold TemplateRouter._load_metadata, TemplateRouter.assign_metadata, try_except,
    print. run.
  fold path. rewrite Hopen. simpl.
  destruct (issubclass (exn_type e) FileNotFoundError); simpl; [done|].
  by rewrite Hexn.
Qed.

(** What [_load_metadata] does when the file was opened and [pickle.load]
    raises on its content. *)
Lemma load_metadata_not_unpickled (s : Self) (data : content) (e : exn) :
  let path := TemplateRouter.metadata_file (self s) in
  open_rb path (os s) = (Ok data, os s) →
  pickle_load data (os s) = (Raise e, os s) →
  TemplateRouter._load_metadata s =
    (Ok tt,
     {| self := TemplateRouter.with_metadata ∅ (self s);
        os := {| files := files (os s);
                 stdout := stdout (os s)
                           ++ ["Warning: Could not load metadata from " +:+ path
                               +:+ ": " +:+ exn_msg e] |} |}).
Proof.
  intros path Hopen Hload.
  unfold TemplateRouter._load_metadata, TemplateRouter.assign_metadata, try_except,
    print. run.
  fold path. rewrite Hopen. simpl. rewrite Hload. simpl.
  destruct data as [md| |]; [done| |]; by injection Hload as <-.
Qed.

(** Loading from a file that holds a pickled overlay and can be read. *)
Lemma load_metadata_pickled (s : Self) (wr : bool) (md : gmap Z dict) :
  files (os s) !! TemplateRouter.metadata_file (self s)
    = Some (RegularFile true wr (PickledMetadata md)) →
  TemplateRouter._load_metadata s =
    (Ok tt, {| self := TemplateRouter.with_metadata md (self s); os := os s |}).
Proof.
  intros Hfile.
  unfold TemplateRouter._load_metadata, TemplateRouter.assign_metadata, try_except,
    open_rb, pickle_load. run.
  by rewrite Hfile.
Qed.

(** Loading the metadata never raises. *)
Lemma load_metadata_returns (s : Self) :
  ∃ md w', TemplateRouter._load_metadata s =
             (Ok tt, {| self := TemplateRouter.with_metadata md (self s); os := w' |}).
Proof.
  pose proof (open_rb_outcome (TemplateRouter.metadata_file (self s)) (os s)) as Hopen.
  destruct (files (os s) !! TemplateRouter.metadata_file (self s))
    as [[|[] wr [md| |]]|] eqn:Hfile;
    try (destruct Hopen as (e & Hopen & Hexn & _);
         rewrite (load_metadata_not_opened s e Hopen Hexn); by eexists _, _).
  - rewrite (load_metadata_pickled s wr md Hfile). by eexists _, _.
  - erewrite (load_metadata_not_unpickled s _ _ Hopen); [by eexists _, _|reflexivity].
  - erewrite (load_metadata_not_unpickled s _ _ Hopen); [by eexists _, _|reflexivity].
Qed.

(** C6: when the engine is constructed, and the metadata file is missing,
    is a directory, may not be read, or holds data on which [pickle.load]
    raises, the constructor returns a router with the empty overlay and
    leaves the files as they were; it prints nothing when there is no such
    file, and one warning in every other case. *)
Theorem C6_construct_without_metadata (persistence_file metadata_file : string)
    (persistence_handler : option TemplateRouter.FilePersistence)
    (w : World) (tm : miner) (w1 : World) :
  let handler :=
    default {| TemplateRouter.file_path := persistence_file |} persistence_handler in
  miner_new (TemplateRouter.file_path handler) w = (Ok tm, w1) →
  (∀ wr data, files w1 !! metadata_file = Some (RegularFile true wr data) →
              ∃ e, pickle_load data w1 = (Raise e, w1)) →
  ∃ w2 : World,
    TemplateRouter.__init__ persistence_file metadata_file persistence_handler w =
      (Ok {| TemplateRouter.persistence_handler := handler;
             TemplateRouter.metadata_file := metadata_file;
             TemplateRouter.template_miner := tm;
             TemplateRouter._cluster_metadata := ∅ |},
       w2)
    ∧ files w2 = files w1
    ∧ (no_such_file w1 metadata_file = true → stdout w2 = stdout w1)
    ∧ (no_such_file w1 metadata_file = false →
         ∃ reason, stdout w2 =
           stdout w1 ++ ["Warning: Could not load metadata from " +:+ metadata_file
                         +:+ ": " +:+ reason]).
Proof.
  intros handler Hnew Hbad.
  unfold TemplateRouter.__init__. fold handler. run. rewrite Hnew.
  unfold construct.
  set (s1 := {| self := {| TemplateRouter.persistence_handler := handler;
                           TemplateRouter.metadata_file := metadata_file;
                           TemplateRouter.template_miner := tm;
                           TemplateRouter._cluster_metadata := ∅ |};
                os := w1 |}).
  pose proof (open_rb_outcome metadata_file w1) as Hopen.
  assert (Hpresent : ∀ n, files w1 !! metadata_file = Some n →
                          no_such_file w1 metadata_file = false).
  { intros n Hn. unfold no_such_file. by rewrite Hn. }
  destruct (files w1 !! metadata_file) as [[|[] wr data]|] eqn:Hfile.
  2: { destruct (Hbad wr data eq_refl) as [e He].
       rewrite (load_metadata_not_unpickled s1 data e Hopen He). simpl.
       eexists. split; [reflexivity|]. simpl. split; [done|].
       rewrite (Hpresent _ eq_refl). split; [done|]. intros _. by eexists. }
  all: destruct Hopen as (e & Hopen & Hexn & Hclass);
    rewrite (load_metadata_not_opened s1 e Hopen Hexn); simpl;
    rewrite Hclass; destruct (no_such_file w1 metadata_file);
    (eexists; split; [reflexivity|]; simpl; split; [done|]; split; [done|]);
    first [done | intros _; by eexists].
Qed.

End metadata_properties.

(** ** The pre-routing hook *)

Section hook_properties.
Context {Router Route SemanticRouter : Type}.
Context (new_SemanticRouter : list Route → Router → string → string →
                              M World SemanticRouter).
Context `{TemplateMiner miner}.

#[local] Abbreviation Auto := (Sys (AutoRouter.t Router Route SemanticRouter (TemplateRouter.t miner))).

Lemma create_route_layer_frame (s s1 : Auto) :
  AutoRouter.create_route_layer new_SemanticRouter s = (Ok tt, s1) →
  AutoRouter.default_model (self s1) = AutoRouter.default_model (self s)
  ∧ AutoRouter.template_routelayer (self s1) = AutoRouter.template_routelayer (self s).
Proof.
  unfold AutoRouter.create_route_layer. run.
  destruct (AutoRouter.routelayer (self s)) as [rl|].
  - by intros [= <-].
  - destruct (new_SemanticRouter _ _ _ _ _) as [[rl|e] w']; [|done].
    by intros [= <-].
Qed.

Lemma create_route_layer_present (s : Auto) :
  is_Some (AutoRouter.routelayer (self s)) →
  AutoRouter.create_route_layer new_SemanticRouter s = (Ok tt, s).
Proof.
  intros [rl Hrl]. unfold AutoRouter.create_route_layer. run. by rewrite Hrl.
Qed.

(** Without a message list the hook returns [None] and changes nothing. *)
Lemma hook_no_messages (model : string) (request_kwargs : dict)
    (input : option pyval) (specific_deployment : option bool) (s : Auto) :
  AutoRouter.async_pre_routing_hook new_SemanticRouter model request_kwargs None
    input specific_deployment s = (Ok None, s).
Proof. reflexivity. Qed.

(** With a last message, the hook constructs its response from the message
    list and, as model, what the match result has under ["target_model"],
    or the default model when nothing matched. *)
Lemma hook_routes_on_last_message (model : string) (request_kwargs : dict)
    (messages : list (gmap string string)) (user_message : gmap string string)
    (input : option pyval) (specific_deployment : option bool)
    (s s1 : Auto) (r : TemplateRouter.t miner) :
  AutoRouter.create_route_layer new_SemanticRouter s = (Ok tt, s1) →
  AutoRouter.template_routelayer (self s) = Some r →
  last messages = Some user_message →
  (AutoRouter.async_pre_routing_hook new_SemanticRouter model request_kwargs
     (Some messages) input specific_deployment s).1 =
  match (TemplateRouter.match_ (dict_get user_message "content" "")
           {| self := r; os := os s1 |}).1 with
  | Ok (Some template_match) =>
      match (AutoRouter.new_PreRoutingHookResponse
               (dict_get template_match "target_model"
                  (PyStr (AutoRouter.default_model (self s))))
               messages tt).1 with
      | Ok response => Ok (Some response)
      | Raise e => Raise e
      end
  | Ok None =>
      Ok (Some {| AutoRouter.model := PyStr (AutoRouter.default_model (self s));
                  AutoRouter.messages := messages |})
  | Raise e => Raise e
  end.
Proof.
  intros Hcreate Hr Hlast.
  destruct (create_route_layer_frame s s1 Hcreate) as [Hdefault Htrl].
  unfold AutoRouter.async_pre_routing_hook, AutoRouter.last_item,
    AutoRouter.on_template_routelayer, AutoRouter.new_PreRoutingHookResponse. run.
  rewrite Hcreate, Hlast, Htrl, Hr, Hdefault. simpl.
  destruct (TemplateRouter.match_ _ _) as [[[template_match|]|e] s2]; simpl;
    try reflexivity.
  by destruct (dict_get template_match "target_model" _).
Qed.

(** C5, on the empty message list: the hook raises; when the semantic
    route layer is in place the exception is the [IndexError] of
    [messages[-1]], and nothing has changed. *)
Theorem C5_empty_message_list_raises (model : string) (request_kwargs : dict)
    (input : option pyval) (specific_deployment : option bool) (s : Auto) :
  ∃ (e : exn) (s' : Auto),
    AutoRouter.async_pre_routing_hook new_SemanticRouter model request_kwargs
      (Some []) input specific_deployment s = (Raise e, s')
    ∧ (is_Some (AutoRouter.routelayer (self s)) →
         e = {| exn_type := IndexError; exn_msg := "list index out of range" |}
         ∧ s' = s).
Proof.
  unfold AutoRouter.async_pre_routing_hook, AutoRouter.last_item,
    AutoRouter.create_route_layer. run.
  destruct (AutoRouter.routelayer (self s)) as [rl|] eqn:Hrl.
  - eexists _, _. split; [reflexivity|]. done.
  - destruct (new_SemanticRouter _ _ _ _ _) as [[rl|e] w'];
      (eexists _, _; split; [reflexivity|]); by intros [? ?].
Qed.


End hook_properties.

(** ** The theorems at concrete states *)

(** [C3_set_cluster_metadata]: a target model is added to a named record of
    cluster 0 with an empty name argument; the name and the other key stay,
    and the file then holds the overlay. *)
Lemma C3_set_cluster_metadata_witness :
  let s := {| self := router_of orders_engine
                        {[ 0 := {[ "name" := PyStr "orders"; "tier" := PyInt 1 ]} ]};
              os := empty_world |} in
  let kwargs : dict := {[ "target_model" := PyStr "gpt-x" ]} in
  ∃ (record : dict) (w' : World),
    TemplateRouter.set_cluster_metadata 0 "" kwargs s =
      (Ok tt,
       {| self := TemplateRouter.with_metadata
                    (<[0 := record]> (TemplateRouter._cluster_metadata (self s)))
                    (self s);
          os := w' |})
    ∧ record !! "name" = Some (PyStr "orders")
    ∧ record !! "target_model" = Some (PyStr "gpt-x")
    ∧ record !! "tier" = Some (PyInt 1)
    ∧ ∃ r, files w' !! "cluster_metadata.pkl" =
             Some (RegularFile r true
                     (PickledMetadata
                        (<[0 := record]> (TemplateRouter._cluster_metadata (self s))))).
Proof.
  intros s kwargs.
  destruct (C3_set_cluster_metadata 0 "" kwargs s eq_refl)
    as (record & w' & Hrun & _ & Hkeep & Hkw & Hother & Hfile).
  exists record, w'. split; [exact Hrun|].
  split; [rewrite (Hkeep eq_refl); reflexivity|].
  split; [apply Hkw; reflexivity|].
  split; [rewrite Hother; [reflexivity|reflexivity|discriminate]|].
  destruct (Hfile _ eq_refl) as [r ->]. exists r. apply lookup_insert_eq.
Defined.

(** [C6_construct_without_metadata] on a metadata file that does not
    unpickle. *)
Lemma C6_construct_without_metadata_witness :
  ∃ w2 : World,
    TemplateRouter.__init__ "prompt_templates.bin" "cluster_metadata.pkl" None
      corrupt_world = (Ok (router_of (Drain.empty (1#2)) ∅), w2)
    ∧ files w2 = files corrupt_world
    ∧ ∃ reason, stdout w2 =
        ["Warning: Could not load metadata from cluster_metadata.pkl: " +:+ reason].
Proof.
  destruct (C6_construct_without_metadata (miner := Drain.t)
              "prompt_templates.bin" "cluster_metadata.pkl" None
              corrupt_world (Drain.empty (1#2)) corrupt_world)
    as (w2 & Hrun & Hfiles & _ & Hwarn).
  - vm_compute. reflexivity.
  - intros wr data Hfile. vm_compute in Hfile. injection Hfile as <- <-. by eexists.
  - exists w2. split; [exact Hrun|]. split; [exact Hfiles|].
    apply Hwarn. vm_compute. reflexivity.
Defined.

(** The constructor where there is no metadata file, and where the path of
    the metadata file leads through a regular file. *)
Example construct_without_file :
  TemplateRouter.__init__ "prompt_templates.bin" "cluster_metadata.pkl" None empty_world
    = (Ok (router_of (Drain.empty (1#2)) ∅), empty_world).
Proof. reflexivity. Qed.

Example construct_under_a_regular_file :
  (TemplateRouter.__init__ (miner := Drain.t) "templates.bin"
     "notes.txt/cache/metadata.pkl" None blocked_world).2 =
    {| files := files blocked_world;
       stdout := [ "Warning: Could not load metadata from notes.txt/cache/metadata.pkl: "
                   +:+ "[Errno 20] Not a directory: 'notes.txt/cache/metadata.pkl'" ] |}.
Proof. reflexivity. Qed.

Example construct_in_a_missing_directory :
  TemplateRouter.__init__ (miner := Drain.t) "templates.bin" "cache/metadata.pkl"
    None blocked_world =
    (Ok {| TemplateRouter.persistence_handler :=
             {| TemplateRouter.file_path := "templates.bin" |};
           TemplateRouter.metadata_file := "cache/metadata.pkl";
           TemplateRouter.template_miner := Drain.empty (1#2);
           TemplateRouter._cluster_metadata := ∅ |},
     blocked_world).
Proof. reflexivity. Qed.

(** [C7_save_failure_keeps_update] on a metadata file without write
    permission. *)
Lemma C7_save_failure_keeps_update_witness :
  let s := {| self := router_of orders_engine ∅; os := readonly_world |} in
  let kwargs : dict := {[ "target_model" := PyStr "gpt-x" ]} in
  ∃ (s' : Sys (TemplateRouter.t Drain.t)) (result : dict),
    TemplateRouter.set_cluster_metadata 0 "orders" kwargs s = (Ok tt, s')
    ∧ TemplateRouter._cluster_metadata (self s') !! 0 =
        Some {[ "name" := PyStr "orders"; "target_model" := PyStr "gpt-x" ]}
    ∧ files (os s') = files readonly_world
    ∧ (TemplateRouter.match_ "user order 7 failed" s').1 = Ok (Some result)
    ∧ result !! "name" = Some (PyStr "orders")
    ∧ result !! "target_model" = Some (PyStr "gpt-x").
Proof.
  intros s kwargs.
  destruct (C7_save_failure_keeps_update 0 "orders" kwargs s
              {| exn_type := PermissionError;
                 exn_msg := "[Errno 13] Permission denied: 'cluster_metadata.pkl'" |}
              readonly_world eq_refl)
    as (s' & Hrun & _ & Hrecord & Hfiles & _ & Hmatch).
  destruct (Hmatch "user order 7 failed" _ _ eq_refl eq_refl)
    as (result & Hresult & Hname & Htarget).
  exists s', result. split; [exact Hrun|].
  split; [rewrite Hrecord; reflexivity|].
  split; [exact Hfiles|].
  split; [exact Hresult|].
  split; [rewrite Hname; reflexivity|rewrite Htarget; reflexivity].
Defined.



(** The hook on the empty message list, and on no message list. *)
Example hook_empty_message_list :
  (AutoRouter.async_pre_routing_hook new_route_layer "auto_router1" ∅
     (Some []) None (Some false)
     {| self := auto_router_of (router_of orders_engine ∅); os := empty_world |}).1 =
    Raise {| exn_type := IndexError; exn_msg := "list index out of range" |}.
Proof. reflexivity. Qed.

Example hook_without_message_list :
  (AutoRouter.async_pre_routing_hook new_route_layer "auto_router1" ∅
     None None (Some false)
     {| self := auto_router_of (router_of orders_engine ∅); os := empty_world |}).1 =
    Ok None.
Proof. reflexivity. Qed.

(** An annotation of an id that no cluster has, on the empty engine. *)
Example annotate_unknown_cluster_id :
  let s := {| self := router_of (Drain.empty (1#2)) ∅; os := empty_world |} in
  let s' := (TemplateRouter.set_cluster_metadata 42 "ghost" ∅ s).2 in
  miner_clusters (TemplateRouter.template_miner (self s')) = []
  ∧ TemplateRouter._cluster_metadata (self s') !! 42 = Some {[ "name" := PyStr "ghost" ]}.
Proof. split; reflexivity. Qed.

(** ** Loading, saving and restarting *)

Section persistence_properties.
Context `{TemplateMiner miner}.

#[local] Abbreviation Self := (Sys (TemplateRouter.t miner)).

Lemma open_wb_ok (path : string) (w w1 : World) :
  open_wb path w = (Ok tt, w1) →
  w1 = set_file path (RegularFile (readable_after w path) true (Garbage "")) w.
Proof.
  unfold open_wb, readable_after, raise.
  destruct (parent_error w path); [done|].
  destruct (files w !! path) as [[|r [] data]|]; by intros [= <-].
Qed.

Lemma open_wb_failed (path : string) (w w1 : World) (e : exn) :
  open_wb path w = (Raise e, w1) → w1 = w.
Proof.
  intros Hopen.
  destruct (open_wb_outcome path w) as [[r Hr]|[e' [He _]]];
    rewrite Hopen in *; congruence.
Qed.

(** What [_save_metadata] does when the file can be opened. *)
Lemma save_metadata_written (s : Self) (w1 : World) :
  let path := TemplateRouter.metadata_file (self s) in
  open_wb path (os s) = (Ok tt, w1) →
  TemplateRouter._save_metadata s =
    (Ok tt,
     {| self := self s;
        os := set_file path
                (RegularFile (readable_after (os s) path) true
                   (PickledMetadata (TemplateRouter._cluster_metadata (self s))))
                (os s) |}).
Proof.
  intros path Hopen.
  unfold TemplateRouter._save_metadata, try_except, pickle_dump. run.
  fold path. rewrite Hopen. simpl. rewrite (open_wb_ok _ _ _ Hopen). simpl.
  rewrite lookup_insert_eq. unfold set_file. simpl. by rewrite insert_insert_eq.
Qed.

(** X1: [_load_metadata] never raises and never changes a file; the overlay
    after it is the pickled one when the file can be read and unpickles, and
    the empty one otherwise; it prints nothing when there is no such file or
    the overlay was loaded, and one warning otherwise. *)
Theorem load_metadata_result (s : Self) :
  let path := TemplateRouter.metadata_file (self s) in
  let quiet :=
    no_such_file (os s) path = true
    ∨ ∃ wr md, files (os s) !! path = Some (RegularFile true wr (PickledMetadata md)) in
  ∃ w' : World,
    TemplateRouter._load_metadata s =
      (Ok tt,
       {| self := TemplateRouter.with_metadata
                    (match files (os s) !! path with
                     | Some (RegularFile true _ (PickledMetadata md)) => md
                     | _ => ∅
                     end) (self s);
          os := w' |})
    ∧ files w' = files (os s)
    ∧ (quiet → stdout w' = stdout (os s))
    ∧ (¬ quiet →
         ∃ reason, stdout w' =
           stdout (os s) ++ ["Warning: Could not load metadata from " +:+ path
                             +:+ ": " +:+ reason]).
Proof.
  intros path quiet. subst quiet.
  pose proof (open_rb_outcome path (os s)) as Hopen.
  assert (Hpresent : ∀ n, files (os s) !! path = Some n →
                          no_such_file (os s) path = false).
  { intros n Hn. unfold no_such_file. by rewrite Hn. }
  destruct (files (os s) !! path) as [[|[] wr [md| |]]|] eqn:Hfile.
  2: { rewrite (load_metadata_pickled s wr md Hfile).
       eexists. split; [reflexivity|]. split; [done|]. split; [done|].
       intros Hquiet. destruct Hquiet. right. by eexists _, _. }
  2,3: erewrite (load_metadata_not_unpickled s _ _ Hopen) by reflexivity;
    (eexists; split; [reflexivity|]; simpl; split; [done|]);
    rewrite (Hpresent _ eq_refl);
    (split; [by intros [?|(? & ? & ?)]|]); intros _; by eexists.
  all: destruct Hopen as (e & Hopen & Hexn & Hclass);
    rewrite (load_metadata_not_opened s e Hopen Hexn); fold path;
    rewrite Hclass; try rewrite (Hpresent _ eq_refl);
    destruct (no_such_file (os s) path) eqn:Hmissing;
    (eexists; split; [reflexivity|]; simpl; split; [done|]; split).
  all: try (intros [?|(? & ? & ?)]; done).
  all: try (intros _; by eexists).
  all: try done.
  all: intros Hquiet; destruct Hquiet; by left.
Qed.

(** X2: [_save_metadata] never raises and never changes the router; it
    leaves every file other than the metadata file as it was; it prints
    nothing or one error line; and when the metadata file cannot be opened
    for writing, no file changes at all and the line it prints is the error
    line with the reason of that failure. *)
Theorem save_metadata_result (s : Self) :
  let path := TemplateRouter.metadata_file (self s) in
  let error_line (reason : string) :=
    "Error: Could not save metadata to " +:+ path +:+ ": " +:+ reason in
  ∃ w' : World,
    TemplateRouter._save_metadata s = (Ok tt, {| self := self s; os := w' |})
    ∧ (∀ p, p ≠ path → files w' !! p = files (os s) !! p)
    ∧ (stdout w' = stdout (os s)
       ∨ ∃ reason, stdout w' = stdout (os s) ++ [error_line reason])
    ∧ (∀ e w1, open_wb path (os s) = (Raise e, w1) →
         files w' = files (os s)
         ∧ stdout w' = stdout (os s) ++ [error_line (exn_msg e)]).
Proof.
  intros path error_line.
  destruct (open_wb path (os s)) as [[[]|e] w1] eqn:Hopen.
  - rewrite (save_metadata_written s w1 Hopen). fold path.
    eexists. split; [reflexivity|]. simpl. split.
    + intros p Hp. by rewrite lookup_insert_ne.
    + split; [by left|]. by intros e w2.
  - rewrite (save_metadata_failed s e w1 Hopen). fold path.
    eexists. split; [reflexivity|]. simpl. split; [done|].
    split; [right; by eexists|]. by intros e' w2 [= <- _].
Qed.

(** X3: an annotation survives a restart.  When the metadata file can be
    opened for writing and read again, and the engine's constructor returns
    without touching that file, a router constructed after
    [set_cluster_metadata] on the same metadata file has the overlay that
    the call left. *)
Theorem metadata_survives_restart (cluster_id : Z) (name : string) (kwargs : dict)
    (s : Self) (w1 : World) (persistence_file : string)
    (persistence_handler : option TemplateRouter.FilePersistence)
    (tm : miner) (w2 : World) :
  let path := TemplateRouter.metadata_file (self s) in
  let s' := (TemplateRouter.set_cluster_metadata cluster_id name kwargs s).2 in
  let handler :=
    default {| TemplateRouter.file_path := persistence_file |} persistence_handler in
  open_wb path (os s) = (Ok tt, w1) →
  readable_after (os s) path = true →
  miner_new (TemplateRouter.file_path handler) (os s') = (Ok tm, w2) →
  files w2 !! path = files (os s') !! path →
  TemplateRouter.__init__ persistence_file path persistence_handler (os s') =
    (Ok {| TemplateRouter.persistence_handler := handler;
           TemplateRouter.metadata_file := path;
           TemplateRouter.template_miner := tm;
           TemplateRouter._cluster_metadata := TemplateRouter._cluster_metadata (self s') |},
     w2).
Proof.
  intros path s' handler Hopen Hread Hnew Hsame.
  assert (Hfile : files (os s') !! path =
            Some (RegularFile true true
                    (PickledMetadata (TemplateRouter._cluster_metadata (self s'))))).
  { subst s'. rewrite set_cluster_metadata_run.
    set (s1 := {| self := TemplateRouter.with_metadata _ (self s); os := os s |}).
    rewrite (save_metadata_written s1 w1 Hopen). simpl. fold path.
    rewrite Hread. by rewrite lookup_insert_eq. }
  unfold TemplateRouter.__init__. fold handler. run. rewrite Hnew.
  unfold construct.
  rewrite (load_metadata_pickled _ true (TemplateRouter._cluster_metadata (self s')))
    by (simpl; by rewrite Hsame).
  reflexivity.
Qed.

End persistence_properties.

(** [metadata_survives_restart]: cluster 0 is annotated in a world without
    files, and the router is then constructed again. *)
Lemma metadata_survives_restart_witness :
  let s := {| self := router_of orders_engine ∅; os := empty_world |} in
  let kwargs : dict := {[ "target_model" := PyStr "gpt-x" ]} in
  let s' := (TemplateRouter.set_cluster_metadata 0 "orders" kwargs s).2 in
  (TemplateRouter.__init__ "prompt_templates.bin" "cluster_metadata.pkl" None (os s')).1 =
    Ok (router_of (Drain.empty (1#2))
          {[ 0 := {[ "name" := PyStr "orders"; "target_model" := PyStr "gpt-x" ]} ]}).
Proof.
  intros s kwargs s'.
  rewrite (metadata_survives_restart (miner := Drain.t) 0 "orders" kwargs s
             (set_file "cluster_metadata.pkl" (RegularFile true true (Garbage "")) empty_world)
             "prompt_templates.bin" None (Drain.empty (1#2)) (os s')).
  - reflexivity.
  - reflexivity.
  - reflexivity.
  - vm_compute. reflexivity.
  - reflexivity.
Defined.

(** ** How annotations compose *)

(** Whether a file can be opened for writing depends on the files only,
    and stays so once it was written. *)
Lemma open_wb_again (path : string) (w w1 : World) (r : bool) (data : content)
    (out : list string) :
  open_wb path w = (Ok tt, w1) →
  ∃ w2, open_wb path {| files := <[path := RegularFile r true data]> (files w);
                        stdout := out |} = (Ok tt, w2).
Proof.
  unfold open_wb, raise. rewrite parent_error_insert. simpl.
  destruct (parent_error w path); [done|].
  rewrite lookup_insert_eq. intros _. by eexists.
Qed.

Lemma open_wb_fails_again (path : string) (w w1 : World) (e : exn)
    (out : list string) :
  open_wb path w = (Raise e, w1) →
  open_wb path {| files := files w; stdout := out |}
    = (Raise e, {| files := files w; stdout := out |}).
Proof.
  unfold open_wb, raise. rewrite parent_error_stdout. simpl.
  destruct (parent_error w path); [by intros [= <- _]|].
  destruct (files w !! path) as [[|r [] data]|]; try done; by intros [= <- _].
Qed.

Section annotation_properties.
Context `{TemplateMiner miner}.

#[local] Abbreviation Self := (Sys (TemplateRouter.t miner)).

Lemma save_metadata_keeps_self (s : Self) :
  self (TemplateRouter._save_metadata s).2 = self s.
Proof.
  destruct (open_wb (TemplateRouter.metadata_file (self s)) (os s))
    as [[[]|e] w1] eqn:Hopen.
  - by rewrite (save_metadata_written s w1 Hopen).
  - by rewrite (save_metadata_failed s e w1 Hopen).
Qed.

(** Saving again right after a save changes no file. *)
Lemma save_metadata_twice (r : TemplateRouter.t miner) (w : World) :
  let s1 := (TemplateRouter._save_metadata {| self := r; os := w |}).2 in
  files (os (TemplateRouter._save_metadata {| self := r; os := os s1 |}).2)
    = files (os s1).
Proof.
  intros s1. subst s1.
  set (s := {| self := r; os := w |}).
  destruct (open_wb (TemplateRouter.metadata_file (self s)) (os s))
    as [[[]|e] w1] eqn:Hopen.
  - rewrite (save_metadata_written s w1 Hopen). simpl in *.
    destruct (open_wb_again _ _ _ (readable_after w (TemplateRouter.metadata_file r))
                (PickledMetadata (TemplateRouter._cluster_metadata r))
                (stdout w) Hopen) as [w2 Hagain].
    set (s' := {| self := r; os := set_file _ _ w |}).
    rewrite (save_metadata_written s' w2 Hagain). simpl.
    unfold readable_after at 1. simpl.
    by rewrite lookup_insert_eq, insert_insert_eq.
  - rewrite (save_metadata_failed s e w1 Hopen). simpl in *.
    set (s' := {| self := r; os := _ |}).
    by rewrite (save_metadata_failed s' e _ (open_wb_fails_again _ _ _ _ _ Hopen)).
Qed.

(** The overlay that [set_cluster_metadata] leaves. *)
Lemma set_cluster_metadata_overlay (cluster_id : Z) (name : string)
    (kwargs : dict) (s : Self) :
  let md := TemplateRouter._cluster_metadata (self s) in
  let old := default ∅ (md !! cluster_id) in
  let named := if bool_decide (name ≠ "") then <["name" := PyStr name]> old else old in
  self (TemplateRouter.set_cluster_metadata cluster_id name kwargs s).2 =
    TemplateRouter.with_metadata (<[cluster_id := kwargs ∪ named]> md) (self s).
Proof.
  intros md old named. rewrite set_cluster_metadata_run. fold md old named.
  apply save_metadata_keeps_self.
Qed.

(** The record of a cluster after the same annotation twice is the one
    after the first. *)
Lemma merged_record_again (name : string) (kwargs old : dict) :
  let named (d : dict) := if bool_decide (name ≠ "") then <["name" := PyStr name]> d else d in
  kwargs ∪ named (kwargs ∪ named old) = kwargs ∪ named old.
Proof.
  intros named. apply map_eq. intros k.
  destruct (kwargs !! k) as [v|] eqn:Hk.
  { by rewrite !(lookup_union_Some_l _ _ _ _ Hk). }
  rewrite !lookup_union_r by done. subst named. simpl.
  case_bool_decide; [|by rewrite lookup_union_r].
  destruct (decide (k = "name")) as [->|Hne].
  - by rewrite !lookup_insert_eq.
  - rewrite !lookup_insert_ne by congruence. rewrite lookup_union_r by done.
    by rewrite lookup_insert_ne by congruence.
Qed.

(** X4: [set_cluster_metadata] is idempotent: a second call with the same
    arguments leaves the router and the files as the first call left them
    (when the file cannot be written, only one more error line is
    printed). *)
Theorem set_cluster_metadata_idempotent (cluster_id : Z) (name : string)
    (kwargs : dict) (s : Self) :
  let s1 := (TemplateRouter.set_cluster_metadata cluster_id name kwargs s).2 in
  let s2 := (TemplateRouter.set_cluster_metadata cluster_id name kwargs s1).2 in
  self s2 = self s1 ∧ files (os s2) = files (os s1).
Proof.
  intros s1 s2.
  assert (Hself : self s2 = self s1).
  { subst s2. rewrite set_cluster_metadata_overlay.
    subst s1. rewrite set_cluster_metadata_overlay. simpl.
    rewrite lookup_insert_eq. simpl. rewrite insert_insert_eq.
    by rewrite merged_record_again. }
  split; [done|].
  pose proof (set_cluster_metadata_overlay cluster_id name kwargs s1) as Hagain.
  simpl in Hagain. fold s2 in Hagain. rewrite Hself in Hagain.
  subst s2. rewrite set_cluster_metadata_run, <- Hagain.
  subst s1. rewrite set_cluster_metadata_run.
  set (s0 := {| self := TemplateRouter.with_metadata _ (self s); os := os s |}).
  rewrite save_metadata_keeps_self.
  apply (save_metadata_twice (self s0) (os s0)).
Qed.

(** X5: two annotations of one cluster merge: the second call's keyword
    arguments win over the first call's, the name is the second call's when
    that is not empty and the first call's otherwise, so that the overlay is
    the one a single call with the merged arguments leaves. *)
Theorem set_cluster_metadata_twice_merges (cluster_id : Z) (name1 name2 : string)
    (kwargs1 kwargs2 : dict) (s : Self) :
  kwargs1 !! "name" = None →
  kwargs2 !! "name" = None →
  let s1 := (TemplateRouter.set_cluster_metadata cluster_id name1 kwargs1 s).2 in
  let s2 := (TemplateRouter.set_cluster_metadata cluster_id name2 kwargs2 s1).2 in
  let name := if bool_decide (name2 ≠ "") then name2 else name1 in
  self s2 =
    self (TemplateRouter.set_cluster_metadata cluster_id name (kwargs2 ∪ kwargs1) s).2.
Proof.
  intros Hk1 Hk2 s1 s2 name. subst s2 s1.
  rewrite !set_cluster_metadata_overlay. simpl.
  rewrite lookup_insert_eq, insert_insert_eq. simpl.
  unfold TemplateRouter.with_metadata. simpl. do 2 f_equal.
  apply map_eq. intros k.
  set (old := default ∅ (TemplateRouter._cluster_metadata (self s) !! cluster_id)).
  destruct (kwargs2 !! k) as [v|] eqn:Hkw2.
  { rewrite (lookup_union_Some_l _ _ _ _ Hkw2).
    symmetry. apply lookup_union_Some_l. by apply lookup_union_Some_l. }
  rewrite lookup_union_r by done.
  destruct (kwargs1 !! k) as [v|] eqn:Hkw1.
  { assert (k ≠ "name") by congruence.
    transitivity (Some v).
    - case_bool_decide; rewrite ?lookup_insert_ne by congruence;
        by apply lookup_union_Some_l.
    - symmetry. apply lookup_union_Some_l. by rewrite lookup_union_r. }
  rewrite (lookup_union_r (kwargs2 ∪ kwargs1)) by (by rewrite lookup_union_r).
  subst name.
  destruct (decide (k = "name")) as [->|Hne].
  - repeat case_bool_decide; rewrite ?lookup_insert_eq; try done.
    + rewrite lookup_union_r by done. by rewrite lookup_insert_eq.
    + by rewrite lookup_union_r.
  - repeat case_bool_decide; rewrite ?lookup_insert_ne by congruence;
      rewrite lookup_union_r by done; by rewrite ?lookup_insert_ne by congruence.
Qed.

(** X6: annotations of two different clusters commute on the overlay. *)
Theorem set_cluster_metadata_commutes (id1 id2 : Z) (name1 name2 : string)
    (kwargs1 kwargs2 : dict) (s : Self) :
  id1 ≠ id2 →
  self (TemplateRouter.set_cluster_metadata id2 name2 kwargs2
          (TemplateRouter.set_cluster_metadata id1 name1 kwargs1 s).2).2 =
  self (TemplateRouter.set_cluster_metadata id1 name1 kwargs1
          (TemplateRouter.set_cluster_metadata id2 name2 kwargs2 s).2).2.
Proof.
  intros Hne. rewrite !set_cluster_metadata_overlay. simpl.
  rewrite !lookup_insert_ne by congruence.
  unfold TemplateRouter.with_metadata. simpl. f_equal.
  by apply insert_insert_ne.
Qed.

End annotation_properties.

(** ** Whitespace around a message *)

Lemma rev_app_spec (s1 s2 : string) : String.rev_app s1 s2 = String.rev s1 +:+ s2.
Proof.
  revert s2. induction s1 as [|c s1 IH]; intros s2; [done|].
  unfold String.rev. simpl. rewrite (IH (String c "")), IH.
  by rewrite string_app_assoc.
Qed.

Lemma rev_cons (c : Ascii.ascii) (s : string) :
  String.rev (String c s) = String.rev s +:+ String c "".
Proof. unfold String.rev at 1. simpl. apply rev_app_spec. Qed.

Lemma rev_append (a b : string) :
  String.rev (a +:+ b) = String.rev b +:+ String.rev a.
Proof.
  induction a as [|c a IH]; [by rewrite string_app_nil_r|].
  by rewrite string_app_cons, !rev_cons, IH, string_app_assoc.
Qed.

Lemma all_space_app (a b : string) :
  all_space (a +:+ b) = all_space a && all_space b.
Proof.
  induction a as [|c a IH]; [done|].
  rewrite string_app_cons. simpl. rewrite IH. by destruct (isspace c).
Qed.

Lemma all_space_rev (s : string) : all_space (String.rev s) = all_space s.
Proof.
  induction s as [|c s IH]; [done|].
  rewrite rev_cons, all_space_app, IH. simpl.
  destruct (isspace c), (all_space s); done.
Qed.

Lemma lstrip_all_space (s : string) : all_space s = true → lstrip s = "".
Proof.
  induction s as [|c s IH]; [done|]. simpl.
  destruct (isspace c); [exact IH|done].
Qed.

Lemma lstrip_space_app (pre s : string) :
  all_space pre = true → lstrip (pre +:+ s) = lstrip s.
Proof.
  induction pre as [|c pre IH]; [done|]. rewrite string_app_cons. simpl.
  destruct (isspace c); [exact IH|done].
Qed.

Lemma lstrip_app (s t : string) :
  all_space s = false → lstrip (s +:+ t) = lstrip s +:+ t.
Proof.
  induction s as [|c s IH]; [done|]. rewrite string_app_cons. simpl.
  destruct (isspace c); [exact IH|done].
Qed.

Lemma rstrip_app_space (s post : string) :
  all_space post = true → rstrip (s +:+ post) = rstrip s.
Proof.
  intros Hpost. unfold rstrip.
  by rewrite rev_append, lstrip_space_app by (by rewrite all_space_rev).
Qed.

(** Whitespace before and after a message is stripped away. *)
Lemma strip_padded (pre message post : string) :
  all_space pre = true → all_space post = true →
  strip (pre +:+ message +:+ post) = strip message.
Proof.
  intros Hpre Hpost. unfold strip.
  rewrite lstrip_space_app by done.
  destruct (all_space message) eqn:Hmessage.
  - rewrite (lstrip_all_space message) by done.
    by rewrite lstrip_all_space by (by rewrite all_space_app, Hmessage, Hpost).
  - rewrite lstrip_app by done. by apply rstrip_app_space.
Qed.

Section message_properties.
Context `{TemplateMiner miner}.

#[local] Abbreviation Self := (Sys (TemplateRouter.t miner)).

(** X7: whitespace before and after a message does not matter: [match]
    and [add_log_message] on the padded message are [match] and
    [add_log_message] on the message. *)
Theorem padded_message_is_handled_alike (pre message post : string) (s : Self) :
  all_space pre = true →
  all_space post = true →
  TemplateRouter.match_ (pre +:+ message +:+ post) s = TemplateRouter.match_ message s
  ∧ TemplateRouter.add_log_message (pre +:+ message +:+ post) s
    = TemplateRouter.add_log_message message s.
Proof.
  intros Hpre Hpost.
  unfold TemplateRouter.match_, TemplateRouter.add_log_message.
  by rewrite strip_padded.
Qed.

(** X8: [get_all_templates] changes nothing and lists one entry per
    cluster of the engine; for a cluster that [match] returns and the engine
    lists, the entry is the result of [match] without its target model. *)
Theorem get_all_templates_agrees_with_match (message : string) (s : Self)
    (c : LogCluster) (tm' : miner) :
  miner_match (strip message) (TemplateRouter.template_miner (self s))
    = (Ok (Some c), tm') →
  c ∈ miner_clusters (TemplateRouter.template_miner (self s)) →
  ∃ (result : dict) (all : list dict),
    (TemplateRouter.match_ message s).1 = Ok (Some result)
    ∧ TemplateRouter.get_all_templates s = (Ok all, s)
    ∧ length all = length (miner_clusters (TemplateRouter.template_miner (self s)))
    ∧ delete "target_model" result ∈ all.
Proof.
  intros Hmatch Hin. rewrite match_run, Hmatch. simpl.
  eexists _, _. split; [reflexivity|].
  unfold TemplateRouter.get_all_templates. run.
  split; [reflexivity|]. split; [by rewrite length_fmap|].
  apply list_elem_of_fmap. exists c. split; [|done].
  rewrite !delete_insert_ne by done. rewrite delete_singleton_eq.
  by rewrite insert_empty.
Qed.

End message_properties.

(** ** More on the pre-routing hook *)

Section hook_more_properties.
Context {Router Route SemanticRouter : Type}.
Context (new_SemanticRouter : list Route → Router → string → string →
                              M World SemanticRouter).
Context `{TemplateMiner miner}.

#[local] Abbreviation Auto := (Sys (AutoRouter.t Router Route SemanticRouter (TemplateRouter.t miner))).

Lemma with_template_routelayer_id
    (a : AutoRouter.t Router Route SemanticRouter (TemplateRouter.t miner))
    (r : TemplateRouter.t miner) :
  AutoRouter.template_routelayer a = Some r →
  AutoRouter.with_template_routelayer r a = a.
Proof. destruct a. simpl. by intros ->. Qed.

(** X9: an annotation routes requests.  After
    [set_cluster_metadata(cluster_id, name, target_model=target, ...)] on the
    template router, the hook answers a request whose last message the
    engine matches to that cluster with the model [target] when that is a
    string; for a target of another type there is no response: the hook
    raises [ValidationError]. *)
Theorem annotation_routes_requests (model : string) (request_kwargs : dict)
    (messages : list (gmap string string)) (user_message : gmap string string)
    (input : option pyval) (specific_deployment : option bool)
    (s s1 : Auto) (r : TemplateRouter.t miner) (c : LogCluster) (tm' : miner)
    (name : string) (kwargs : dict) (target : pyval) :
  let annotated :=
    (TemplateRouter.set_cluster_metadata (cluster_id c) name kwargs
       {| self := r; os := os s |}).2 in
  let s_annotated : Auto :=
    {| self := AutoRouter.with_template_routelayer (self annotated) (self s);
       os := os annotated |} in
  let answer :=
    (AutoRouter.async_pre_routing_hook new_SemanticRouter model request_kwargs
       (Some messages) input specific_deployment s_annotated).1 in
  kwargs !! "target_model" = Some target →
  AutoRouter.create_route_layer new_SemanticRouter s_annotated = (Ok tt, s1) →
  last messages = Some user_message →
  miner_match (strip (dict_get user_message "content" ""))
    (TemplateRouter.template_miner r) = (Ok (Some c), tm') →
  (∀ target_model : string, target = PyStr target_model →
     answer = Ok (Some {| AutoRouter.model := PyStr target_model;
                          AutoRouter.messages := messages |}))
  ∧ ((∀ target_model : string, target ≠ PyStr target_model) →
       ∃ e, answer = Raise e ∧ exn_type e = ValidationError).
Proof.
  intros annotated s_annotated answer Htarget Hcreate Hlast Hmatch. subst answer.
  rewrite (hook_routes_on_last_message _ _ _ _ _ _ _ _ _ (self annotated)
             Hcreate eq_refl Hlast).
  rewrite match_run. simpl.
  pose proof (set_cluster_metadata_overlay (cluster_id c) name kwargs
                {| self := r; os := os s |}) as Hself.
  simpl in Hself. fold annotated in Hself. rewrite Hself. simpl.
  rewrite Hmatch. simpl.
  unfold dict_get at 1. rewrite !lookup_insert_ne, lookup_singleton_eq by done. simpl.
  rewrite dict_get_insert_eq. unfold dict_get.
  rewrite (lookup_union_Some_l _ _ _ _ Htarget). simpl.
  split.
  - by intros target_model ->.
  - intros Hother. destruct target as [|b|z|target_model|l]; try (by eexists).
    by destruct (Hother target_model).
Qed.

(** X10: when the template router finds no cluster for the last message,
    or there is no template router, the response's model is the router's
    default model, whatever model the caller passed, and the messages are
    passed on as they came. *)
Theorem unmatched_request_gets_default (model : string) (request_kwargs : dict)
    (messages : list (gmap string string)) (user_message : gmap string string)
    (input : option pyval) (specific_deployment : option bool) (s s1 : Auto) :
  AutoRouter.create_route_layer new_SemanticRouter s = (Ok tt, s1) →
  last messages = Some user_message →
  (AutoRouter.template_routelayer (self s) = None
   ∨ ∃ r tm', AutoRouter.template_routelayer (self s) = Some r
       ∧ miner_match (strip (dict_get user_message "content" ""))
           (TemplateRouter.template_miner r) = (Ok None, tm')) →
  (AutoRouter.async_pre_routing_hook new_SemanticRouter model request_kwargs
     (Some messages) input specific_deployment s).1 =
    Ok (Some {| AutoRouter.model := PyStr (AutoRouter.default_model (self s));
                AutoRouter.messages := messages |}).
Proof.
  intros Hcreate Hlast [Hnone|(r & tm' & Hr & Hmatch)].
  - destruct (create_route_layer_frame _ s s1 Hcreate) as [Hdefault Htrl].
    unfold AutoRouter.async_pre_routing_hook, AutoRouter.last_item. run.
    by rewrite Hcreate, Hlast, Htrl, Hnone, Hdefault.
  - rewrite (hook_routes_on_last_message _ _ _ _ _ _ _ _ _ r Hcreate Hr Hlast).
    rewrite match_run. simpl. by rewrite Hmatch.
Qed.

(** X11: only the last message counts.  Two calls of the hook in the same
    state, with message lists that end in the same message, choose the same
    model, whatever the other arguments are. *)
Theorem hook_reads_last_message_only (model1 model2 : string)
    (request_kwargs1 request_kwargs2 : dict)
    (messages1 messages2 : list (gmap string string))
    (user_message : gmap string string)
    (input1 input2 : option pyval) (deployment1 deployment2 : option bool)
    (s s1 : Auto) (r : TemplateRouter.t miner)
    (response1 : AutoRouter.PreRoutingHookResponse) :
  AutoRouter.create_route_layer new_SemanticRouter s = (Ok tt, s1) →
  AutoRouter.template_routelayer (self s) = Some r →
  last messages1 = Some user_message →
  last messages2 = Some user_message →
  (AutoRouter.async_pre_routing_hook new_SemanticRouter model1 request_kwargs1
     (Some messages1) input1 deployment1 s).1 = Ok (Some response1) →
  (AutoRouter.async_pre_routing_hook new_SemanticRouter model2 request_kwargs2
     (Some messages2) input2 deployment2 s).1 =
    Ok (Some {| AutoRouter.model := AutoRouter.model response1;
                AutoRouter.messages := messages2 |}).
Proof.
  intros Hcreate Hr Hlast1 Hlast2.
  rewrite (hook_routes_on_last_message _ _ _ _ _ _ _ _ _ r Hcreate Hr Hlast1).
  rewrite (hook_routes_on_last_message _ _ _ _ _ _ _ _ _ r Hcreate Hr Hlast2).
  destruct (TemplateRouter.match_ _ _).1 as [[template_match|]|e];
    [| |done]; [|by intros [= <-]].
  unfold AutoRouter.new_PreRoutingHookResponse.
  destruct (dict_get template_match "target_model" _); simpl; try done.
  by intros [= <-].
Qed.

(** X12: the hook only reads.  With the semantic route layer in place and
    an engine whose match is read-only, a call of the hook, whatever it
    returns or raises, leaves the router, the template router inside it and
    the environment as they were. *)
Theorem hook_changes_nothing (model : string) (request_kwargs : dict)
    (messages : option (list (gmap string string)))
    (input : option pyval) (specific_deployment : option bool) (s : Auto) :
  is_Some (AutoRouter.routelayer (self s)) →
  (∀ (m : string) (tm : miner), (miner_match m tm).2 = tm) →
  (AutoRouter.async_pre_routing_hook new_SemanticRouter model request_kwargs
     messages input specific_deployment s).2 = s.
Proof.
  intros Hrl Hro. destruct messages as [messages|]; [|done].
  unfold AutoRouter.async_pre_routing_hook, AutoRouter.last_item,
    AutoRouter.on_template_routelayer, AutoRouter.new_PreRoutingHookResponse. run.
  rewrite (create_route_layer_present _ s Hrl).
  destruct (last messages) as [user_message|]; [|done]. simpl.
  destruct (AutoRouter.template_routelayer (self s)) as [r|] eqn:Hr; [|done].
  simpl. rewrite match_run. simpl.
  pose proof (Hro (strip (dict_get user_message "content" ""))
                (TemplateRouter.template_miner r)) as Htm.
  destruct (miner_match _ _) as [[[c|]|e] tm']; simpl in *; subst tm';
    rewrite with_template_miner_id, (with_template_routelayer_id _ _ Hr);
    [|by destruct s..].
  match goal with |- context [match ?v with PyNone => _ | _ => _ end] =>
    destruct v end; by destruct s.
Qed.

(** X13: the semantic route layer is built on demand and kept: after a
    call of the hook that returned a response the layer is in place, a layer
    that was in place before is still the same one, the default model is
    unchanged, and the response carries the message list as it came. *)
Theorem hook_builds_route_layer_once (model : string) (request_kwargs : dict)
    (messages : list (gmap string string))
    (input : option pyval) (specific_deployment : option bool) (s : Auto)
    (response : AutoRouter.PreRoutingHookResponse) :
  let after :=
    (AutoRouter.async_pre_routing_hook new_SemanticRouter model request_kwargs
       (Some messages) input specific_deployment s).2 in
  (AutoRouter.async_pre_routing_hook new_SemanticRouter model request_kwargs
     (Some messages) input specific_deployment s).1 = Ok (Some response) →
  is_Some (AutoRouter.routelayer (self after))
  ∧ (∀ rl, AutoRouter.routelayer (self s) = Some rl →
           AutoRouter.routelayer (self after) = Some rl)
  ∧ AutoRouter.default_model (self after) = AutoRouter.default_model (self s)
  ∧ AutoRouter.messages response = messages.
Proof.
  intros after. subst after.
  unfold AutoRouter.async_pre_routing_hook, AutoRouter.last_item,
    AutoRouter.on_template_routelayer, AutoRouter.create_route_layer,
    AutoRouter.new_PreRoutingHookResponse. run.
  destruct (AutoRouter.routelayer (self s)) as [rl|] eqn:Hrl; simpl.
  - destruct (last messages) as [user_message|]; [|done]. simpl.
    destruct (AutoRouter.template_routelayer (self s)) as [r|]; simpl.
    + destruct (TemplateRouter.match_ _ _) as [[[template_match|]|e] s2]; simpl;
        [| |done].
      * destruct (dict_get template_match "target_model" _); simpl; try done.
        intros [= <-]; simpl; rewrite Hrl; by eauto.
      * intros [= <-]; simpl; rewrite Hrl; by eauto.
    + intros [= <-]. simpl. rewrite Hrl. by eauto.
  - destruct (new_SemanticRouter _ _ _ _ _) as [[rl|e] w']; simpl; [|done].
    destruct (last messages) as [user_message|]; [|done]. simpl.
    destruct (AutoRouter.template_routelayer (self s)) as [r|]; simpl.
    + destruct (TemplateRouter.match_ _ _) as [[[template_match|]|e] s2]; simpl;
        [| |done].
      * destruct (dict_get template_match "target_model" _); simpl; try done.
        intros [= <-]; simpl; by eauto.
      * intros [= <-]; simpl; by eauto.
    + intros [= <-]. simpl. by eauto.
Qed.

End hook_more_properties.

(** ** Constructing an [AutoRouter] *)

Lemma rev_involutive (s : string) : String.rev (String.rev s) = s.
Proof.
  induction s as [|c s IH]; [done|].
  by rewrite rev_cons, rev_append, IH.
Qed.

Lemma string_app_inv_tail (a b suffix : string) :
  a +:+ suffix = b +:+ suffix → a = b.
Proof.
  intros Heq. apply (f_equal String.rev) in Heq. rewrite !rev_append in Heq.
  apply (inj _) in Heq. apply (f_equal String.rev) in Heq.
  by rewrite !rev_involutive in Heq.
Qed.

Lemma no_slash_app (a b : string) : no_slash (a +:+ b) = no_slash a && no_slash b.
Proof.
  induction a as [|c a IH]; [done|]. rewrite string_app_cons. simpl.
  rewrite IH. by destruct (bool_decide _).
Qed.

Lemma starts_with_slash_no_slash (s : string) :
  no_slash s = true → AutoRouter.starts_with_slash s = false.
Proof. destruct s as [|c s]; [done|]. simpl. by destruct (bool_decide _). Qed.

(** The two file names of a model whose name has no path separator. *)
Lemma join_router_templates (file : string) :
  no_slash file = true →
  AutoRouter.os_path_join "router_templates" file = "router_templates/" +:+ file.
Proof.
  intros Hfile. unfold AutoRouter.os_path_join.
  by rewrite starts_with_slash_no_slash.
Qed.

(** Joining to [router_templates] loses nothing of the file name. *)
Lemma join_router_templates_inj (f1 f2 : string) :
  AutoRouter.os_path_join "router_templates" f1
    = AutoRouter.os_path_join "router_templates" f2 → f1 = f2.
Proof.
  unfold AutoRouter.os_path_join.
  change (bool_decide ("router_templates" = "")
          || AutoRouter.starts_with_slash (String.rev "router_templates")) with false.
  simpl.
  destruct (AutoRouter.starts_with_slash f1) eqn:H1,
           (AutoRouter.starts_with_slash f2) eqn:H2; try done.
  - intros Heq. rewrite Heq, string_app_cons in H1. done.
  - intros Heq. rewrite <- Heq, string_app_cons in H2. done.
  - intros Heq. by apply (inj (String.app "router_templates/")) in Heq.
Qed.

Section construction_properties.
Context {Router Route SemanticRouter : Type}.
Context (json_loads : string → AutoRouter.result AutoRouter.json).
Context (new_Route : AutoRouter.json → AutoRouter.json → AutoRouter.json →
                     AutoRouter.json → AutoRouter.result Route).
Context (from_json_routes : string → AutoRouter.MR World (list Route)).
Context `{TemplateMiner miner}.

(** A constructed template router has the file names it was given. *)
Lemma template_router_init_files (persistence_file metadata_file : string)
    (w w' : World) (r : TemplateRouter.t miner) :
  TemplateRouter.__init__ persistence_file metadata_file None w = (Ok r, w') →
  TemplateRouter.metadata_file r = metadata_file
  ∧ TemplateRouter.file_path (TemplateRouter.persistence_handler r) = persistence_file.
Proof.
  unfold TemplateRouter.__init__. run.
  destruct (miner_new persistence_file w) as [[tm|e] w1]; [|done].
  unfold construct.
  destruct (load_metadata_returns
              {| self := {| TemplateRouter.persistence_handler :=
                              {| TemplateRouter.file_path := persistence_file |};
                            TemplateRouter.metadata_file := metadata_file;
                            TemplateRouter.template_miner := tm;
                            TemplateRouter._cluster_metadata := ∅ |};
                 os := w1 |}) as (md & w2 & ->).
  by intros [= <- _].
Qed.

(** What a constructed [AutoRouter] holds. *)
Lemma auto_router_init_returned (model_name default_model embedding_model : string)
    (litellm_router_instance : Router)
    (auto_router_config_path auto_router_config : option string) (w w' : World)
    (a : AutoRouter.t Router Route SemanticRouter (TemplateRouter.t miner)) :
  AutoRouter.__init__ json_loads new_Route from_json_routes model_name default_model
    embedding_model litellm_router_instance auto_router_config_path auto_router_config w
    = (AutoRouter.Returned a, w') →
  AutoRouter.model_name a = model_name
  ∧ AutoRouter.default_model a = default_model
  ∧ AutoRouter.routelayer a = None
  ∧ ∃ r, AutoRouter.template_routelayer a = Some r
      ∧ TemplateRouter.metadata_file r =
          AutoRouter.os_path_join "router_templates"
            (model_name +:+ "_template_router_metadata.pkl")
      ∧ TemplateRouter.file_path (TemplateRouter.persistence_handler r) =
          AutoRouter.os_path_join "router_templates"
            (model_name +:+ "_template_router.bin").
Proof.
  unfold AutoRouter.__init__, AutoRouter.lift_M, mbind, AutoRouter.MR_bind, mret,
    AutoRouter.MR_ret.
  destruct (AutoRouter._load_semantic_routing_routes _ _ _ _ _ w) as [[routes|?] w1];
    [|done].
  destruct (TemplateRouter.__init__ _ _ None w1) as [[r|e] w2] eqn:Hinit; [|done].
  intros [= <- _]. simpl. repeat split; try done.
  exists r. split; [done|]. by apply (template_router_init_files _ _ _ _ _ Hinit).
Qed.

(** X14: without a configuration there is no router: when neither the
    path nor the inline configuration is given (each [None] or empty), the
    constructor raises [ValueError] before it touches the environment. *)
Theorem construction_needs_config (model_name default_model embedding_model : string)
    (litellm_router_instance : Router)
    (auto_router_config_path auto_router_config : option string) (w : World) :
  AutoRouter.truthy auto_router_config_path = None →
  AutoRouter.truthy auto_router_config = None →
  AutoRouter.__init__ (miner := miner) (SemanticRouter := SemanticRouter)
    json_loads new_Route from_json_routes model_name default_model
    embedding_model litellm_router_instance auto_router_config_path auto_router_config w =
    (AutoRouter.Raised (AutoRouter.ValueError "No router config provided"), w).
Proof.
  intros Hpath Hconfig.
  unfold AutoRouter.__init__, AutoRouter._load_semantic_routing_routes, mbind,
    AutoRouter.MR_bind.
  by rewrite Hpath, Hconfig.
Qed.

(** The loop over entries that are all objects. *)
Lemma append_routes_objects (entries : list (gmap string AutoRouter.json))
    (routes : list Route) :
  AutoRouter.append_routes new_Route (AutoRouter.JObject <$> entries)
    = AutoRouter.Returned routes
  ↔ Forall2 (λ entry route,
       new_Route (default AutoRouter.JNull (entry !! "name"))
                 (default AutoRouter.JNull (entry !! "description"))
                 (default (AutoRouter.JArray []) (entry !! "utterances"))
                 (default AutoRouter.JNull (entry !! "score_threshold"))
         = AutoRouter.Returned route)
      entries routes.
Proof.
  revert routes. induction entries as [|entry entries IH]; intros routes.
  { split.
    - intros [= <-]. constructor.
    - intros Hall. by apply Forall2_nil_inv_l in Hall as ->. }
  rewrite fmap_cons. cbn [AutoRouter.append_routes AutoRouter.json_get].
  unfold mbind, AutoRouter.result_bind, mret, AutoRouter.result_ret.
  split.
  - destruct (new_Route _ _ _ _) as [route|] eqn:Hroute; [|done].
    destruct (AutoRouter.append_routes new_Route _) as [rest|] eqn:Hrest; [|done].
    intros [= <-]. constructor; [done|]. by apply IH.
  - intros Hall. apply Forall2_cons_inv_l in Hall as (route & rest & Hroute & Hrest & ->).
    rewrite Hroute. apply IH in Hrest. by rewrite Hrest.
Qed.

(** X15: one route per entry, in order.  When the inline configuration
    parses to a JSON object whose ["routes"] is an array of objects, the
    loader returns a list of routes exactly when each route is what the
    [Route] constructor returns for the name, description, utterances and
    score threshold of the entry at its position ([None], [None], [[]] and
    [None] where the entry lacks the key); the list is then as long as the
    array. *)
Theorem one_route_per_entry (config : string) (fields : gmap string AutoRouter.json)
    (entries : list (gmap string AutoRouter.json)) (routes : list Route) :
  json_loads config = AutoRouter.Returned (AutoRouter.JObject fields) →
  fields !! "routes" = Some (AutoRouter.JArray (AutoRouter.JObject <$> entries)) →
  (AutoRouter._load_auto_router_routes_from_config_json json_loads new_Route (Some config)
     = AutoRouter.Returned routes
   ↔ Forall2 (λ entry route,
        new_Route (default AutoRouter.JNull (entry !! "name"))
                  (default AutoRouter.JNull (entry !! "description"))
                  (default (AutoRouter.JArray []) (entry !! "utterances"))
                  (default AutoRouter.JNull (entry !! "score_threshold"))
          = AutoRouter.Returned route)
       entries routes)
  ∧ (AutoRouter._load_auto_router_routes_from_config_json json_loads new_Route (Some config)
       = AutoRouter.Returned routes →
     length routes = length entries).
Proof.
  intros Hloads Hroutes.
  assert (Hrun : AutoRouter._load_auto_router_routes_from_config_json json_loads new_Route
                   (Some config)
                 = AutoRouter.append_routes new_Route (AutoRouter.JObject <$> entries)).
  { unfold AutoRouter._load_auto_router_routes_from_config_json.
    unfold mbind, AutoRouter.result_bind. rewrite Hloads. simpl. by rewrite Hroutes. }
  rewrite Hrun. split; [apply append_routes_objects|].
  intros Hreturned. apply append_routes_objects in Hreturned.
  symmetry. by eapply Forall2_length.
Qed.

(** X16: two routers with different model names keep their templates and
    their metadata in different files. *)
Theorem routers_have_own_files (name1 name2 default1 default2 embedding1 embedding2 : string)
    (instance1 instance2 : Router)
    (path1 path2 config1 config2 : option string) (w1 w1' w2 w2' : World)
    (a1 a2 : AutoRouter.t Router Route SemanticRouter (TemplateRouter.t miner)) :
  AutoRouter.__init__ json_loads new_Route from_json_routes name1 default1 embedding1
    instance1 path1 config1 w1 = (AutoRouter.Returned a1, w1') →
  AutoRouter.__init__ json_loads new_Route from_json_routes name2 default2 embedding2
    instance2 path2 config2 w2 = (AutoRouter.Returned a2, w2') →
  name1 ≠ name2 →
  ∃ r1 r2,
    AutoRouter.template_routelayer a1 = Some r1
    ∧ AutoRouter.template_routelayer a2 = Some r2
    ∧ TemplateRouter.metadata_file r1 ≠ TemplateRouter.metadata_file r2
    ∧ TemplateRouter.file_path (TemplateRouter.persistence_handler r1)
        ≠ TemplateRouter.file_path (TemplateRouter.persistence_handler r2).
Proof.
  intros Hinit1 Hinit2 Hne.
  destruct (auto_router_init_returned _ _ _ _ _ _ _ _ _ Hinit1)
    as (_ & _ & _ & r1 & Hr1 & Hmeta1 & Hfile1).
  destruct (auto_router_init_returned _ _ _ _ _ _ _ _ _ Hinit2)
    as (_ & _ & _ & r2 & Hr2 & Hmeta2 & Hfile2).
  exists r1, r2. repeat split; try done.
  - rewrite Hmeta1, Hmeta2. intros Heq.
    by apply join_router_templates_inj, string_app_inv_tail in Heq.
  - rewrite Hfile1, Hfile2. intros Heq.
    by apply join_router_templates_inj, string_app_inv_tail in Heq.
Qed.

(** X17: the metadata directory is never created.  For a constructed
    router whose model name has no path separator, in an environment where
    [router_templates] is not a directory, [set_cluster_metadata] on its
    template router changes no file and prints one error line: the
    annotation lives in memory only. *)
Theorem annotations_need_the_directory
    (model_name default_model embedding_model : string)
    (litellm_router_instance : Router)
    (auto_router_config_path auto_router_config : option string) (w0 w0' : World)
    (a : AutoRouter.t Router Route SemanticRouter (TemplateRouter.t miner))
    (cluster_id : Z) (name : string) (kwargs : dict) (w : World) :
  AutoRouter.__init__ json_loads new_Route from_json_routes model_name default_model
    embedding_model litellm_router_instance auto_router_config_path auto_router_config w0
    = (AutoRouter.Returned a, w0') →
  no_slash model_name = true →
  files w !! "router_templates" ≠ Some Directory →
  ∃ r, AutoRouter.template_routelayer a = Some r
    ∧ let s' := (TemplateRouter.set_cluster_metadata cluster_id name kwargs
                   {| self := r; os := w |}).2 in
      files (os s') = files w
      ∧ is_Some (TemplateRouter._cluster_metadata (self s') !! cluster_id)
      ∧ ∃ reason, stdout (os s') =
          stdout w ++ ["Error: Could not save metadata to router_templates/"
                       +:+ model_name +:+ "_template_router_metadata.pkl: "
                       +:+ reason].
Proof.
  intros Hinit Hname Hdir.
  destruct (auto_router_init_returned _ _ _ _ _ _ _ _ _ Hinit)
    as (_ & _ & _ & r & Hr & Hmeta & _).
  exists r. split; [done|].
  assert (Hfile : no_slash (model_name +:+ "_template_router_metadata.pkl") = true)
    by (by rewrite no_slash_app, Hname).
  rewrite join_router_templates in Hmeta by done.
  assert (∃ e, open_wb (TemplateRouter.metadata_file r) w = (Raise e, w)) as [e Hopen].
  { rewrite Hmeta. unfold open_wb.
    change ("router_templates/" +:+ ?f) with ("router_templates" +:+ "/" +:+ f).
    rewrite parent_error_join by done.
    destruct (files w !! "router_templates") as [[|? ? ?]|]; [done|by eexists..]. }
  intros s'. subst s'. rewrite set_cluster_metadata_run. simpl.
  set (s1 := {| self := TemplateRouter.with_metadata _ r; os := w |}).
  rewrite (save_metadata_failed s1 e w Hopen). simpl. rewrite Hmeta.
  split; [done|]. split; [rewrite lookup_insert_eq; by eexists|].
  exists (exn_msg e). rewrite !string_app_assoc. reflexivity.
Qed.

End construction_properties.

(** ** The summary *)

Section summary_properties.
Context `{TemplateMiner miner}.
Context (str_template : list string → string) (str_dict : dict → string).

#[local] Abbreviation Self := (Sys (TemplateRouter.t miner)).

(** The lines that [print_summary] prints for one cluster. *)
Lemma print_cluster_lines (c : LogCluster) (r : TemplateRouter.t miner) (w : World) :
  TemplateRouter.print_cluster str_template str_dict c {| self := r; os := w |} =
    (Ok tt,
     {| self := r;
        os := {| files := files w;
                 stdout := stdout w
                           ++ cluster_summary str_template str_dict
                                (TemplateRouter._cluster_metadata r) c |} |}).
Proof.
  unfold TemplateRouter.print_cluster, print, cluster_summary, dict_get. run.
  destruct (TemplateRouter._cluster_metadata r !! cluster_id c) as [record|]; simpl.
  - destruct (decide (record = ∅)) as [->|Hrecord].
    + rewrite bool_decide_false by (rewrite map_size_empty; lia). simpl.
      by rewrite <- !app_assoc.
    + rewrite bool_decide_true by (by rewrite map_size_non_empty_iff). simpl.
      by rewrite <- !app_assoc.
  - rewrite bool_decide_false by (rewrite map_size_empty; lia). simpl.
    by rewrite <- !app_assoc.
Qed.

(** The lines that the loop of [print_summary] prints. *)
Lemma print_clusters_lines (clusters : list LogCluster) (r : TemplateRouter.t miner)
    (w : World) :
  TemplateRouter.for_each clusters (TemplateRouter.print_cluster str_template str_dict)
    {| self := r; os := w |} =
    (Ok tt,
     {| self := r;
        os := {| files := files w;
                 stdout := stdout w
                           ++ concat (cluster_summary str_template str_dict
                                        (TemplateRouter._cluster_metadata r)
                                      <$> clusters) |} |}).
Proof.
  revert w. induction clusters as [|c clusters IH]; intros w.
  { simpl. unfold mret, M_ret. rewrite app_nil_r. by destruct w. }
  cbn [TemplateRouter.for_each]. unfold mbind, M_bind.
  rewrite print_cluster_lines, IH. simpl. by rewrite <- app_assoc.
Qed.

(** X18: [print_summary] never raises and changes nothing but the
    standard output, to which it adds the three lines of the header and then,
    for each cluster of the engine in order, the lines with its id, its
    template and its size, a line with its metadata record when the overlay
    has one for it that is not empty, and a rule. *)
Theorem print_summary_lines (s : Self) :
  let clusters := miner_clusters (TemplateRouter.template_miner (self s)) in
  let md := TemplateRouter._cluster_metadata (self s) in
  let cluster_lines (c : LogCluster) :=
    [ "Cluster ID: " +:+ pretty (cluster_id c);
      "Template: " +:+ str_template (get_template c);
      "Size: " +:+ pretty (size c) ]
    ++ match md !! cluster_id c with
       | Some record =>
           if decide (record = ∅) then [] else [ "Metadata: " +:+ str_dict record ]
       | None => []
       end
    ++ [ "------------------------------------------------------------" ] in
  TemplateRouter.print_summary str_template str_dict s =
    (Ok tt,
     {| self := self s;
        os := {| files := files (os s);
                 stdout := stdout (os s)
                           ++ [ "============================================================";
                                "ALL TEMPLATES:";
                                "============================================================" ]
                           ++ concat (cluster_lines <$> clusters) |} |}).
Proof.
  intros clusters md cluster_lines.
  unfold TemplateRouter.print_summary, print. run. fold clusters.
  rewrite print_clusters_lines. simpl. rewrite <- !app_assoc. reflexivity.
Qed.

End summary_properties.

(** ** Logging successful completions *)

(** The case of an exception that reaches the clause [except Exception]:
    it is caught, and a line was printed, or it is no [Exception]. *)
Ltac caught :=
  match goal with
  | |- context [issubclass (exn_type ?e) Exception] =>
      destruct (issubclass (exn_type e) Exception) eqn:?; simpl;
      [try (eexists; by rewrite last_snoc)|try done]
  end.

(** A [try] with the single clause [except Exception]. *)
Lemma try_except_one {S A} (body : M S A) (h : exn → M S A) (s : S) :
  try_except body [(Exception, h)] s =
  match body s with
  | (Ok a, s') => (Ok a, s')
  | (Raise e, s') =>
      if issubclass (exn_type e) Exception then h e s' else (Raise e, s')
  end.
Proof.
  unfold try_except. destruct (body s) as [[a|e] s']; [done|]. simpl.
  by destruct (issubclass (exn_type e) Exception).
Qed.

Section logging_properties.
Context {Client Timestamp Float : Type}.
Context (str_obj : AutoRouter.obj → string) (str_pyval : pyval → string).
Context (get_prisma_client_or_throw : string → M World Client).
Context (utcnow : M World Timestamp).
Context (create : Client → AutoRouter.LogRecord Timestamp Float → M World unit).
Context (elapsed : Timestamp → Timestamp → Float).

(** X19: [save_prompt_response_async] turns failures into [False]: it
    returns [True] only when the row, with the prompt, cluster id and model
    it was given, was created; it returns [False] after printing the failure
    when the client, the clock or the creation raised an [Exception]; and it
    raises only what is not an [Exception]. *)
Theorem save_prompt_response_outcome (prompt : AutoRouter.obj)
    (cluster_id : option string) (response : AutoRouter.obj)
    (duration : option (AutoRouter.duration_arg Float)) (model : AutoRouter.obj)
    (prisma_client : option Client) (table_name : string) (w : World) :
  match AutoRouter.save_prompt_response_async str_obj get_prisma_client_or_throw
          utcnow create prompt cluster_id response duration model prisma_client
          table_name w with
  | (Ok true, w') =>
      ∃ client record w1,
        create client record w1 = (Ok tt, w')
        ∧ AutoRouter.record_prompt record = prompt
        ∧ AutoRouter.record_cluster_id record = cluster_id
        ∧ AutoRouter.record_model record = model
        ∧ (∀ c, prisma_client = Some c → client = c)
  | (Ok false, w') =>
      ∃ reason,
        last (stdout w') =
          Some ("AutoRouter: failed to save prompt/response to DB: " +:+ reason)
  | (Raise e, _) => issubclass (exn_type e) Exception = false
  end.
Proof.
  unfold AutoRouter.save_prompt_response_async. rewrite try_except_one.
  unfold print. run.
  destruct prisma_client as [client|]; simpl.
  - destruct (utcnow w) as [[created_at|e] w1]; simpl; [|by caught].
    destruct (create client _ w1) as [[[]|e] w2] eqn:Hcreate; simpl; [|by caught].
    eexists _, _, _. split; [exact Hcreate|]. simpl. repeat split; try done.
    by intros c [= <-].
  - destruct (get_prisma_client_or_throw _ w) as [[client|e] w0]; simpl; [|by caught].
    destruct (utcnow w0) as [[created_at|e] w1]; simpl; [|by caught].
    destruct (create client _ w1) as [[[]|e] w2] eqn:Hcreate; simpl; [|by caught].
    eexists _, _, _. split; [exact Hcreate|]. simpl. repeat split; try done.
Qed.

End logging_properties.

Section callback_properties.
Context {Client Timestamp Float : Type}.
Context (str_obj : AutoRouter.obj → string) (str_pyval : pyval → string).
Context (get_prisma_client_or_throw : string → M World Client).
Context (utcnow : M World Timestamp).
Context (create : Client → AutoRouter.LogRecord Timestamp Float → M World unit).
Context (elapsed : Timestamp → Timestamp → Float).
Context {Router Route SemanticRouter : Type}.
Context `{TemplateMiner miner}.

#[local] Abbreviation Auto := (Sys (AutoRouter.t Router Route SemanticRouter (TemplateRouter.t miner))).

#[local] Abbreviation log_success_event :=
  (AutoRouter.async_log_success_event (Route := Route) (SemanticRouter := SemanticRouter)
     (R := TemplateRouter.t miner)
     str_obj str_pyval get_prisma_client_or_throw utcnow create elapsed).

(** X20: the callback swallows failures: whatever the template router or
    the database do, [async_log_success_event] raises only what is not an
    [Exception]. *)
Theorem log_success_event_swallows_errors (kwargs : gmap string AutoRouter.obj)
    (response_obj : option AutoRouter.response)
    (start_time end_time : option Timestamp) (s : Auto) :
  match (log_success_event kwargs response_obj start_time end_time s).1 with
  | Ok _ => True
  | Raise e => issubclass (exn_type e) Exception = false
  end.
Proof.
  unfold AutoRouter.async_log_success_event. rewrite try_except_one.
  match goal with |- context [match ?body s with _ => _ end] =>
    destruct (body s) as [[[]|e] s'] end; [done|].
  by destruct (issubclass (exn_type e) Exception) eqn:Hsub.
Qed.

(** X21: without a prompt nothing happens: when the call has no
    [messages], an empty list of them, or a last message that is a
    dictionary without [content], the callback returns and leaves the
    router, the template router and the environment as they were. *)
Theorem log_success_event_without_prompt (kwargs : gmap string AutoRouter.obj)
    (response_obj : option AutoRouter.response)
    (start_time end_time : option Timestamp) (s : Auto) :
  (kwargs !! "messages" = None
   ∨ kwargs !! "messages" = Some (AutoRouter.OList [])
   ∨ ∃ messages last_message,
       kwargs !! "messages" = Some (AutoRouter.OList messages)
       ∧ last messages = Some (AutoRouter.ODict last_message)
       ∧ last_message !! "content" = None) →
  log_success_event kwargs response_obj start_time end_time s = (Ok tt, s).
Proof.
  intros Hprompt.
  assert (Hnone : AutoRouter.last_prompt str_obj kwargs = AutoRouter.ONone).
  { unfold AutoRouter.last_prompt.
    destruct Hprompt as [->|[->|(messages & last_message & -> & -> & ->)]]; done. }
  unfold AutoRouter.async_log_success_event. rewrite try_except_one, Hnone. run.
  by destruct (AutoRouter.template_routelayer (self s)).
Qed.

(** X22: a completed request teaches the template router.  When the last
    message is a dictionary whose content is a string, and the engine's
    [add_log_message] returns, then after the callback the router is as it
    was but for the engine of its template router, which is in the state
    that call left, whatever the database does. *)
Theorem log_success_event_learns (kwargs : gmap string AutoRouter.obj)
    (response_obj : option AutoRouter.response)
    (start_time end_time : option Timestamp) (s : Auto)
    (messages : list AutoRouter.obj) (last_message : gmap string AutoRouter.obj)
    (p : string) (r : TemplateRouter.t miner) (result : AddResult) (tm' : miner) :
  kwargs !! "messages" = Some (AutoRouter.OList messages) →
  last messages = Some (AutoRouter.ODict last_message) →
  last_message !! "content" = Some (AutoRouter.OStr p) →
  str_obj (AutoRouter.OStr p) = p →
  AutoRouter.template_routelayer (self s) = Some r →
  miner_add_log_message (strip p) (TemplateRouter.template_miner r) = (Ok result, tm') →
  let after := (log_success_event kwargs response_obj start_time end_time s).2 in
  self after =
    AutoRouter.with_template_routelayer (TemplateRouter.with_template_miner tm' r) (self s).
Proof.
  intros Hmessages Hlast Hcontent Hstr Hr Hadd after. subst after.
  assert (Hprompt : AutoRouter.last_prompt str_obj kwargs = AutoRouter.OStr p).
  { unfold AutoRouter.last_prompt. by rewrite Hmessages, Hlast, Hcontent. }
  unfold AutoRouter.async_log_success_event. rewrite try_except_one, Hprompt.
  unfold AutoRouter.on_template_routelayer. run. rewrite Hr, Hstr. simpl.
  unfold TemplateRouter.add_log_message, TemplateRouter.on_template_miner. run.
  rewrite Hadd. simpl. rewrite dict_get_insert_eq.
  match goal with |- context [AutoRouter.save_prompt_response_async ?a ?b ?c ?d ?e ?f ?g ?h ?i ?j ?k ?w] =>
    destruct (AutoRouter.save_prompt_response_async a b c d e f g h i j k w)
      as [[saved|e'] w'] end; simpl; [done|].
  by destruct (issubclass (exn_type e') Exception).
Qed.

End callback_properties.

(** ** Observing and annotating *)

Section observe_properties.
Context `{TemplateMiner miner}.

#[local] Abbreviation Self := (Sys (TemplateRouter.t miner)).

(** What [add_log_message] does to the state: only the engine moves. *)
Lemma add_log_message_state (message : string) (s : Self) :
  (TemplateRouter.add_log_message message s).2 =
    {| self := TemplateRouter.with_template_miner
                 (miner_add_log_message (strip message)
                    (TemplateRouter.template_miner (self s))).2 (self s);
       os := os s |}.
Proof.
  unfold TemplateRouter.add_log_message, TemplateRouter.on_template_miner. run.
  by destruct (miner_add_log_message _ _) as [[result|e] tm'].
Qed.

(** Saving does not look at the engine. *)
Lemma save_metadata_ignores_engine (r : TemplateRouter.t miner) (tm : miner) (w : World) :
  (TemplateRouter._save_metadata
     {| self := TemplateRouter.with_template_miner tm r; os := w |}).2 =
    {| self := TemplateRouter.with_template_miner tm r;
       os := os (TemplateRouter._save_metadata {| self := r; os := w |}).2 |}.
Proof.
  destruct (open_wb (TemplateRouter.metadata_file r) w) as [[[]|e] w1] eqn:Hopen.
  - rewrite (save_metadata_written {| self := TemplateRouter.with_template_miner tm r;
                                      os := w |} w1 Hopen).
    by rewrite (save_metadata_written {| self := r; os := w |} w1 Hopen).
  - rewrite (save_metadata_failed {| self := TemplateRouter.with_template_miner tm r;
                                     os := w |} e w1 Hopen).
    by rewrite (save_metadata_failed {| self := r; os := w |} e w1 Hopen).
Qed.

(** X23: observing and annotating commute: [add_log_message] and
    [set_cluster_metadata] in either order leave the same router, with the
    engine that the observation leaves and the overlay that the annotation
    leaves, and [add_log_message] returns the same in both orders, whether
    the engine returns or raises. *)
Theorem observe_and_annotate_commute (message : string) (cluster_id : Z)
    (name : string) (kwargs : dict) (s : Self) :
  let annotated := (TemplateRouter.set_cluster_metadata cluster_id name kwargs s).2 in
  let observed := (TemplateRouter.add_log_message message s).2 in
  self (TemplateRouter.add_log_message message annotated).2
    = self (TemplateRouter.set_cluster_metadata cluster_id name kwargs observed).2
  ∧ TemplateRouter.template_miner (self (TemplateRouter.add_log_message message annotated).2)
    = TemplateRouter.template_miner (self observed)
  ∧ TemplateRouter._cluster_metadata (self (TemplateRouter.add_log_message message annotated).2)
    = TemplateRouter._cluster_metadata (self annotated)
  ∧ (TemplateRouter.add_log_message message annotated).1
    = (TemplateRouter.add_log_message message s).1.
Proof.
  intros annotated observed.
  pose proof (set_cluster_metadata_overlay cluster_id name kwargs s) as Hself.
  simpl in Hself. fold annotated in Hself.
  pose proof (set_cluster_metadata_overlay cluster_id name kwargs observed) as Hobserved.
  simpl in Hobserved. rewrite Hobserved.
  subst observed. rewrite !add_log_message_state. simpl. rewrite Hself. simpl.
  repeat split.
  unfold TemplateRouter.add_log_message, TemplateRouter.on_template_miner. run.
  rewrite Hself. simpl.
  by destruct (miner_add_log_message _ _) as [[result|e] tm'].
Qed.

End observe_properties.

(** ** Edge cases of the hook and of the configuration *)

Section edge_properties.
Context {Router Route SemanticRouter : Type}.
Context (new_SemanticRouter : list Route → Router → string → string →
                              M World SemanticRouter).
Context (json_loads : string → AutoRouter.result AutoRouter.json).
Context (new_Route : AutoRouter.json → AutoRouter.json → AutoRouter.json →
                     AutoRouter.json → AutoRouter.result Route).
Context (from_json_routes : string → AutoRouter.MR World (list Route)).
Context `{TemplateMiner miner}.

#[local] Abbreviation Auto := (Sys (AutoRouter.t Router Route SemanticRouter (TemplateRouter.t miner))).

(** X24: a last message without the key [content] is routed as the empty
    text: the hook returns what it returns when that message has the empty
    string as content. *)
Theorem message_without_content_is_empty_text (model : string) (request_kwargs : dict)
    (history : list (gmap string string)) (user_message : gmap string string)
    (input : option pyval) (specific_deployment : option bool)
    (s s1 : Auto) (r : TemplateRouter.t miner) :
  AutoRouter.create_route_layer new_SemanticRouter s = (Ok tt, s1) →
  AutoRouter.template_routelayer (self s) = Some r →
  user_message !! "content" = None →
  let chosen (o : outcome (option AutoRouter.PreRoutingHookResponse)) :=
    match o with
    | Ok (Some response) => Ok (Some (AutoRouter.model response))
    | Ok None => Ok None
    | Raise e => Raise e
    end in
  chosen (AutoRouter.async_pre_routing_hook new_SemanticRouter model request_kwargs
            (Some (history ++ [user_message])) input specific_deployment s).1 =
  chosen (AutoRouter.async_pre_routing_hook new_SemanticRouter model request_kwargs
            (Some (history ++ [<["content" := ""]> user_message])) input
            specific_deployment s).1.
Proof.
  intros Hcreate Hr Hcontent chosen. subst chosen.
  rewrite (hook_routes_on_last_message _ _ _ _ user_message _ _ _ _ r Hcreate Hr)
    by apply last_snoc.
  rewrite (hook_routes_on_last_message _ _ _ _ (<["content" := ""]> user_message)
             _ _ _ _ r Hcreate Hr) by apply last_snoc.
  rewrite dict_get_insert_eq. unfold dict_get at 1. rewrite Hcontent. simpl.
  destruct (TemplateRouter.match_ _ _).1 as [[template_match|]|e]; try done.
  unfold AutoRouter.new_PreRoutingHookResponse.
  by destruct (dict_get template_match "target_model" _).
Qed.

(** X25: the configuration file wins: with a path that is not empty, the
    constructor never reads the inline configuration.  For every two inline
    configurations, parsers and route constructors it leaves the same
    environment, and it raises the same, or returns two routers that differ
    only in the attribute [auto_router_config], which holds the inline
    configuration as it was given. *)
Theorem config_path_wins (model_name default_model embedding_model path : string)
    (litellm_router_instance : Router)
    (auto_router_config_path config1 config2 : option string)
    (json_loads' : string → AutoRouter.result AutoRouter.json)
    (new_Route' : AutoRouter.json → AutoRouter.json → AutoRouter.json →
                  AutoRouter.json → AutoRouter.result Route)
    (w : World) :
  AutoRouter.truthy auto_router_config_path = Some path →
  let run1 :=
    AutoRouter.__init__ (miner := miner) (SemanticRouter := SemanticRouter)
      json_loads new_Route from_json_routes model_name default_model embedding_model
      litellm_router_instance auto_router_config_path config1 w in
  let run2 :=
    AutoRouter.__init__ (miner := miner) (SemanticRouter := SemanticRouter)
      json_loads' new_Route' from_json_routes model_name default_model embedding_model
      litellm_router_instance auto_router_config_path config2 w in
  run1.2 = run2.2
  ∧ match run1.1, run2.1 with
    | AutoRouter.Returned a1, AutoRouter.Returned a2 =>
        AutoRouter.auto_router_config a1 = config1
        ∧ AutoRouter.auto_router_config a2 = config2
        ∧ a1 = AutoRouter.with_auto_router_config config1 a2
        ∧ AutoRouter.loaded_routes a1 = AutoRouter.loaded_routes a2
    | AutoRouter.Raised r1, AutoRouter.Raised r2 => r1 = r2
    | _, _ => False
    end.
Proof.
  intros Hpath run1 run2. subst run1 run2.
  unfold AutoRouter.__init__, AutoRouter._load_semantic_routing_routes.
  rewrite Hpath.
  unfold mbind, AutoRouter.MR_bind, mret, AutoRouter.MR_ret, AutoRouter.lift_M.
  destruct (from_json_routes path w) as [[routes|raised] w1]; [|done].
  by destruct (TemplateRouter.__init__ _ _ None w1) as [[r|e] w2].
Qed.

Lemma append_routes_not_an_object (before after : list AutoRouter.json)
    (entry : AutoRouter.json) :
  (∀ fields, entry ≠ AutoRouter.JObject fields) →
  ∃ r, AutoRouter.append_routes new_Route (before ++ entry :: after) = AutoRouter.Raised r.
Proof.
  intros Hentry. induction before as [|first before IH]; simpl.
  - destruct entry; try (by eexists). by destruct (Hentry fields).
  - unfold mbind, AutoRouter.result_bind.
    destruct (AutoRouter.json_get first "name" _); [|by eexists].
    destruct (AutoRouter.json_get first "description" _); [|by eexists].
    destruct (AutoRouter.json_get first "utterances" _); [|by eexists].
    destruct (AutoRouter.json_get first "score_threshold" _); [|by eexists].
    destruct (new_Route _ _ _ _); [|by eexists].
    destruct IH as [r ->]. by eexists.
Qed.

(** X26: all routes or none: when an entry of the array under ["routes"]
    is not a JSON object, the loader raises, however many well-formed
    entries come before it, and returns no routes at all. *)
Theorem routes_all_or_nothing (config : string) (fields : gmap string AutoRouter.json)
    (before after : list AutoRouter.json) (entry : AutoRouter.json) :
  json_loads config = AutoRouter.Returned (AutoRouter.JObject fields) →
  fields !! "routes" = Some (AutoRouter.JArray (before ++ entry :: after)) →
  (∀ entry_fields, entry ≠ AutoRouter.JObject entry_fields) →
  ∃ r, AutoRouter._load_auto_router_routes_from_config_json json_loads new_Route
         (Some config) = AutoRouter.Raised r.
Proof.
  intros Hloads Hroutes Hentry.
  unfold AutoRouter._load_auto_router_routes_from_config_json.
  unfold mbind, AutoRouter.result_bind. rewrite Hloads. simpl. rewrite Hroutes. simpl.
  by apply append_routes_not_an_object.
Qed.

End edge_properties.

(** ** Names and locality *)

Section name_properties.
Context `{TemplateMiner miner}.

#[local] Abbreviation Self := (Sys (TemplateRouter.t miner)).

(** The name in the result of [match]. *)
Lemma match_result_name (message : string) (s : Self) (c : LogCluster) (tm' : miner) :
  miner_match (strip message) (TemplateRouter.template_miner (self s))
    = (Ok (Some c), tm') →
  ∃ result : dict,
    (TemplateRouter.match_ message s).1 = Ok (Some result)
    ∧ result !! "name" =
        Some (dict_get (dict_get (TemplateRouter._cluster_metadata (self s))
                          (cluster_id c) ∅)
                "name" (PyStr (default_name (cluster_id c)))).
Proof.
  intros Hmatch. rewrite match_run, Hmatch. simpl.
  eexists. split; [reflexivity|]. by simplify_map_eq.
Qed.

(** X27: default names do not collide: when [match] returns two clusters
    with different ids, neither of which has a stored name, the two results
    have different names. *)
Theorem default_names_differ (message1 message2 : string) (s : Self)
    (c1 c2 : LogCluster) (tm1 tm2 : miner) :
  let md := TemplateRouter._cluster_metadata (self s) in
  miner_match (strip message1) (TemplateRouter.template_miner (self s))
    = (Ok (Some c1), tm1) →
  miner_match (strip message2) (TemplateRouter.template_miner (self s))
    = (Ok (Some c2), tm2) →
  cluster_id c1 ≠ cluster_id c2 →
  dict_get md (cluster_id c1) ∅ !! "name" = None →
  dict_get md (cluster_id c2) ∅ !! "name" = None →
  ∃ result1 result2 : dict,
    (TemplateRouter.match_ message1 s).1 = Ok (Some result1)
    ∧ (TemplateRouter.match_ message2 s).1 = Ok (Some result2)
    ∧ result1 !! "name" ≠ result2 !! "name".
Proof.
  intros md Hmatch1 Hmatch2 Hne Hname1 Hname2.
  destruct (match_result_name _ _ _ _ Hmatch1) as (result1 & Hrun1 & Hresult1).
  destruct (match_result_name _ _ _ _ Hmatch2) as (result2 & Hrun2 & Hresult2).
  exists result1, result2. split; [done|]. split; [done|].
  rewrite Hresult1, Hresult2. fold md. unfold dict_get at 1 3.
  rewrite Hname1, Hname2. simpl.
  unfold default_name. intros [= Heq]. by apply (inj _), (inj pretty) in Heq.
Qed.

(** X28: annotations are local: [set_cluster_metadata] on one cluster id
    changes no answer of [match] for a cluster with another id. *)
Theorem annotation_is_local (message : string) (cluster_id0 : Z) (name : string)
    (kwargs : dict) (s : Self) (c : LogCluster) (tm' : miner) :
  miner_match (strip message) (TemplateRouter.template_miner (self s))
    = (Ok (Some c), tm') →
  cluster_id c ≠ cluster_id0 →
  (TemplateRouter.match_ message
     (TemplateRouter.set_cluster_metadata cluster_id0 name kwargs s).2).1
    = (TemplateRouter.match_ message s).1.
Proof.
  intros Hmatch Hne. rewrite !match_run.
  rewrite set_cluster_metadata_overlay. simpl. rewrite Hmatch. simpl.
  unfold dict_get. by rewrite !lookup_insert_ne by congruence.
Qed.

End name_properties.

(** ** The further theorems at concrete states *)

(** [set_cluster_metadata_twice_merges]: a name and a tier, then a target
    model with an empty name. *)
Lemma set_cluster_metadata_twice_merges_witness :
  let s := {| self := router_of orders_engine ∅; os := empty_world |} in
  let s1 := (TemplateRouter.set_cluster_metadata 0 "orders" {[ "tier" := PyInt 1 ]} s).2 in
  let s2 := (TemplateRouter.set_cluster_metadata 0 ""
               {[ "target_model" := PyStr "gpt-x" ]} s1).2 in
  TemplateRouter._cluster_metadata (self s2) !! 0 =
    Some {[ "name" := PyStr "orders"; "tier" := PyInt 1;
            "target_model" := PyStr "gpt-x" ]}.
Proof.
  intros s s1 s2. subst s2 s1.
  rewrite (set_cluster_metadata_twice_merges (miner := Drain.t) 0 "orders" ""
             {[ "tier" := PyInt 1 ]} {[ "target_model" := PyStr "gpt-x" ]} s)
    by reflexivity.
  reflexivity.
Defined.

(** [set_cluster_metadata_commutes]: clusters 0 and 1, in both orders. *)
Lemma set_cluster_metadata_commutes_witness :
  let s := {| self := router_of orders_engine ∅; os := empty_world |} in
  self (TemplateRouter.set_cluster_metadata 1 "logins" ∅
          (TemplateRouter.set_cluster_metadata 0 "orders" ∅ s).2).2 =
  self (TemplateRouter.set_cluster_metadata 0 "orders" ∅
          (TemplateRouter.set_cluster_metadata 1 "logins" ∅ s).2).2.
Proof.
  intros s.
  apply (set_cluster_metadata_commutes (miner := Drain.t) 0 1 "orders" "logins" ∅ ∅ s).
  discriminate.
Defined.

(** [padded_message_is_handled_alike]: two spaces before and one after. *)
Lemma padded_message_is_handled_alike_witness :
  let s := {| self := router_of orders_engine ∅; os := empty_world |} in
  TemplateRouter.match_ "  user order 7 failed " s
    = TemplateRouter.match_ "user order 7 failed" s.
Proof.
  intros s.
  exact (proj1 (padded_message_is_handled_alike (miner := Drain.t)
                  "  " "user order 7 failed" " " s eq_refl eq_refl)).
Defined.

(** [get_all_templates_agrees_with_match] on the cluster of the orders. *)
Lemma get_all_templates_agrees_with_match_witness :
  let s := {| self := router_of orders_engine {[ 0 := {[ "name" := PyStr "orders" ]} ]};
              os := empty_world |} in
  ∃ (result : dict) (all : list dict),
    (TemplateRouter.match_ "user order 7 failed" s).1 = Ok (Some result)
    ∧ TemplateRouter.get_all_templates s = (Ok all, s)
    ∧ length all = 1%nat
    ∧ delete "target_model" result ∈ all.
Proof.
  intros s.
  exact (get_all_templates_agrees_with_match (miner := Drain.t)
           "user order 7 failed" s
           {| cluster_id := 0;
              log_template_tokens := [Tok "user"; Tok "order"; Wildcard; Tok "failed"];
              size := 2 |}
           orders_engine eq_refl (list_elem_of_here _ _)).
Defined.

(** [annotation_routes_requests]: cluster 0 gets a target model, and a
    request about an order is answered with it. *)
Lemma annotation_routes_requests_witness :
  let r := router_of orders_engine ∅ in
  let annotated :=
    (TemplateRouter.set_cluster_metadata 0 "orders" {[ "target_model" := PyStr "gpt-x" ]}
       {| self := r; os := empty_world |}).2 in
  let messages : list (gmap string string) :=
    [ {[ "role" := "user"; "content" := "user order 7 failed" ]} ] in
  (AutoRouter.async_pre_routing_hook new_route_layer "auto_router1" ∅
     (Some messages) None (Some false)
     {| self := auto_router_of (self annotated); os := os annotated |}).1 =
    Ok (Some {| AutoRouter.model := PyStr "gpt-x"; AutoRouter.messages := messages |}).
Proof.
  intros r annotated messages.
  refine (proj1 (annotation_routes_requests new_route_layer "auto_router1" ∅ messages
            {[ "role" := "user"; "content" := "user order 7 failed" ]}
            None (Some false)
            {| self := auto_router_of r; os := empty_world |}
            {| self := auto_router_of (self annotated); os := os annotated |}
            r
            {| cluster_id := 0;
               log_template_tokens := [Tok "user"; Tok "order"; Wildcard; Tok "failed"];
               size := 2 |}
            orders_engine "orders" {[ "target_model" := PyStr "gpt-x" ]} (PyStr "gpt-x")
            _ _ _ _) "gpt-x" eq_refl); reflexivity.
Defined.

(** A target model that is a number: the request is not answered. *)
Example numeric_target_is_refused :
  let annotated :=
    (TemplateRouter.set_cluster_metadata 0 "orders" {[ "target_model" := PyInt 4 ]}
       {| self := router_of orders_engine ∅; os := empty_world |}).2 in
  ∃ msg,
    (AutoRouter.async_pre_routing_hook new_route_layer "auto_router1" ∅
       (Some [ {[ "role" := "user"; "content" := "user order 7 failed" ]} ])
       None (Some false)
       {| self := auto_router_of (self annotated); os := os annotated |}).1 =
      Raise {| exn_type := ValidationError; exn_msg := msg |}.
Proof. by eexists. Qed.

(** [unmatched_request_gets_default]: a greeting matches no cluster. *)
Lemma unmatched_request_gets_default_witness :
  let messages : list (gmap string string) :=
    [ {[ "role" := "user"; "content" := "hello there" ]} ] in
  (AutoRouter.async_pre_routing_hook new_route_layer "some-other-model" ∅
     (Some messages) None (Some false)
     {| self := auto_router_of (router_of orders_engine ∅); os := empty_world |}).1 =
    Ok (Some {| AutoRouter.model := PyStr "gpt-4o-mini"; AutoRouter.messages := messages |}).
Proof.
  intros messages.
  refine (unmatched_request_gets_default new_route_layer "some-other-model" ∅ messages
            {[ "role" := "user"; "content" := "hello there" ]} None (Some false)
            {| self := auto_router_of (router_of orders_engine ∅); os := empty_world |}
            {| self := auto_router_of (router_of orders_engine ∅); os := empty_world |}
            _ _ _); [reflexivity|reflexivity|].
  right. exists (router_of orders_engine ∅), orders_engine. split; reflexivity.
Defined.

(** [hook_reads_last_message_only]: the same last message after different
    histories, and with different other arguments. *)
Lemma hook_reads_last_message_only_witness :
  let last_message : gmap string string :=
    {[ "role" := "user"; "content" := "user order 7 failed" ]} in
  let s := {| self := auto_router_of
                        (router_of orders_engine {[ 0 := {[ "target_model" := PyStr "gpt-x" ]} ]});
              os := empty_world |} in
  (AutoRouter.async_pre_routing_hook new_route_layer "b" {[ "user" := PyStr "u" ]}
     (Some [ {[ "role" := "system"; "content" := "be brief" ]}; last_message ])
     (Some PyNone) None s).1 =
    Ok (Some {| AutoRouter.model := PyStr "gpt-x";
                AutoRouter.messages :=
                  [ {[ "role" := "system"; "content" := "be brief" ]}; last_message ] |}).
Proof.
  intros last_message s.
  refine (hook_reads_last_message_only new_route_layer "a" "b" ∅ {[ "user" := PyStr "u" ]}
            [last_message]
            [ {[ "role" := "system"; "content" := "be brief" ]}; last_message ]
            last_message None (Some PyNone) (Some false) None s s
            (router_of orders_engine {[ 0 := {[ "target_model" := PyStr "gpt-x" ]} ]})
            {| AutoRouter.model := PyStr "gpt-x"; AutoRouter.messages := [last_message] |}
            _ _ _ _ _); reflexivity.
Defined.

(** [hook_changes_nothing] on the engine of the specification. *)
Lemma hook_changes_nothing_witness :
  let s := {| self := auto_router_of (router_of orders_engine ∅); os := empty_world |} in
  (AutoRouter.async_pre_routing_hook new_route_layer "auto_router1" ∅
     (Some [ {[ "role" := "user"; "content" := "user order 7 failed" ]} ])
     None (Some false) s).2 = s.
Proof.
  intros s.
  apply (hook_changes_nothing new_route_layer (miner := Drain.t)).
  - by eexists.
  - intros m tm. reflexivity.
Defined.

(** [hook_builds_route_layer_once] on a router without a route layer, whose
    template router knows a target model for the orders. *)
Lemma hook_builds_route_layer_once_witness :
  let s := {| self := fresh_auto_router_of
                        (router_of orders_engine {[ 0 := {[ "target_model" := PyStr "gpt-x" ]} ]});
              os := empty_world |} in
  let messages : list (gmap string string) :=
    [ {[ "role" := "user"; "content" := "user order 7 failed" ]} ] in
  is_Some (AutoRouter.routelayer
             (self (AutoRouter.async_pre_routing_hook new_route_layer "auto_router1" ∅
                      (Some messages) None (Some false) s).2)).
Proof.
  intros s messages.
  refine (proj1 (hook_builds_route_layer_once new_route_layer "auto_router1" ∅
                   messages None (Some false) s
                   {| AutoRouter.model := PyStr "gpt-x"; AutoRouter.messages := messages |} _)).
  reflexivity.
Defined.

(** [construction_needs_config]: an empty path and no inline
    configuration. *)
Lemma construction_needs_config_witness :
  AutoRouter.__init__ (miner := Drain.t) (SemanticRouter := unit)
    loads_empty_object unit_route no_routes_from_json
    "auto_router1" "gpt-4o-mini" "text-embedding-3-small" tt (Some "") None empty_world =
    (AutoRouter.Raised (AutoRouter.ValueError "No router config provided"), empty_world).
Proof.
  apply (construction_needs_config (miner := Drain.t) (SemanticRouter := unit)
           loads_empty_object unit_route no_routes_from_json); reflexivity.
Defined.

(** [one_route_per_entry]: a configuration with two routes, of which the
    second has no key at all. *)
Lemma one_route_per_entry_witness :
  AutoRouter._load_auto_router_routes_from_config_json loads_two_routes named_route
    (Some "two routes") =
    AutoRouter.Returned
      [ (AutoRouter.JString "billing", AutoRouter.JArray [AutoRouter.JString "refund"]);
        (AutoRouter.JNull, AutoRouter.JArray []) ].
Proof.
  refine (proj2 (proj1 (one_route_per_entry loads_two_routes named_route "two routes"
                          {[ "routes" :=
                               AutoRouter.JArray
                                 (AutoRouter.JObject <$>
                                    [ {[ "name" := AutoRouter.JString "billing";
                                         "utterances" :=
                                           AutoRouter.JArray [AutoRouter.JString "refund"] ]};
                                      ∅ ]) ]}
                          [ {[ "name" := AutoRouter.JString "billing";
                               "utterances" :=
                                 AutoRouter.JArray [AutoRouter.JString "refund"] ]};
                            ∅ ]
                          _ _ _)) _).
  - reflexivity.
  - reflexivity.
  - repeat constructor.
Defined.

(** [routers_have_own_files]: two routers, named a and b. *)
Lemma routers_have_own_files_witness :
  ∃ r1 r2 : TemplateRouter.t Drain.t,
    TemplateRouter.metadata_file r1 = "router_templates/a_template_router_metadata.pkl"
    ∧ TemplateRouter.metadata_file r2 = "router_templates/b_template_router_metadata.pkl"
    ∧ TemplateRouter.metadata_file r1 ≠ TemplateRouter.metadata_file r2.
Proof.
  destruct (routers_have_own_files (miner := Drain.t) (SemanticRouter := unit)
              loads_empty_object unit_route no_routes_from_json
              "a" "b" "gpt-4o-mini" "gpt-4o-mini" "e" "e" tt tt
              None None (Some "{}") (Some "{}")
              empty_world empty_world empty_world empty_world
              (fresh_auto_router_of_name "a") (fresh_auto_router_of_name "b"))
    as (r1 & r2 & Hr1 & Hr2 & Hne & _).
  - reflexivity.
  - reflexivity.
  - discriminate.
  - exists r1, r2. injection Hr1 as <-. injection Hr2 as <-.
    split; [reflexivity|]. split; [reflexivity|]. exact Hne.
Defined.

(** [annotations_need_the_directory]: a new router in a world without
    files. *)
Lemma annotations_need_the_directory_witness :
  ∃ r : TemplateRouter.t Drain.t,
    AutoRouter.template_routelayer (fresh_auto_router_of_name "a") = Some r
    ∧ let s' := (TemplateRouter.set_cluster_metadata 0 "orders" ∅
                   {| self := r; os := empty_world |}).2 in
      files (os s') = ∅
      ∧ is_Some (TemplateRouter._cluster_metadata (self s') !! 0).
Proof.
  destruct (annotations_need_the_directory (miner := Drain.t) (SemanticRouter := unit)
              loads_empty_object unit_route no_routes_from_json
              "a" "gpt-4o-mini" "e" tt None (Some "{}") empty_world empty_world
              (fresh_auto_router_of_name "a") 0 "orders" ∅ empty_world)
    as (r & Hr & Hfiles & Hrecord & _).
  - reflexivity.
  - reflexivity.
  - discriminate.
  - exists r. split; [exact Hr|]. split; [exact Hfiles|exact Hrecord].
Defined.

(** [log_success_event_without_prompt]: a call without messages. *)
Lemma log_success_event_without_prompt_witness :
  let s := {| self := auto_router_of (router_of orders_engine ∅); os := empty_world |} in
  AutoRouter.async_log_success_event str_of_obj str_of_pyval client_at_hand
    clock_at_zero database_down seconds_between
    {[ "model" := AutoRouter.OStr "gpt-x" ]} None (Some 0) (Some 2) s = (Ok tt, s).
Proof.
  intros s.
  apply (log_success_event_without_prompt (miner := Drain.t)
           str_of_obj str_of_pyval client_at_hand clock_at_zero database_down
           seconds_between).
  left. reflexivity.
Defined.

(** [log_success_event_learns]: the third order message arrives with a
    completion while the database is down; the cluster grows to size 3. *)
Lemma log_success_event_learns_witness :
  let s := {| self := auto_router_of (router_of orders_engine ∅); os := empty_world |} in
  let kwargs : gmap string AutoRouter.obj :=
    {[ "model" := AutoRouter.OStr "gpt-x";
       "messages" := AutoRouter.OList
         [ AutoRouter.ODict {[ "role" := AutoRouter.OStr "user";
                               "content" := AutoRouter.OStr "user order 789 failed" ]} ] ]} in
  let after :=
    (AutoRouter.async_log_success_event str_of_obj str_of_pyval client_at_hand
       clock_at_zero database_down seconds_between kwargs None (Some 0) (Some 2) s).2 in
  ∃ r, AutoRouter.template_routelayer (self after) = Some r
    ∧ miner_clusters (TemplateRouter.template_miner r) =
        [ {| cluster_id := 0;
             log_template_tokens := [Tok "user"; Tok "order"; Wildcard; Tok "failed"];
             size := 3 |} ].
Proof.
  intros s kwargs after.
  pose proof (log_success_event_learns (miner := Drain.t)
                str_of_obj str_of_pyval client_at_hand clock_at_zero database_down
                seconds_between kwargs None (Some 0) (Some 2) s
                [ AutoRouter.ODict {[ "role" := AutoRouter.OStr "user";
                                      "content" := AutoRouter.OStr "user order 789 failed" ]} ]
                {[ "role" := AutoRouter.OStr "user";
                   "content" := AutoRouter.OStr "user order 789 failed" ]}
                "user order 789 failed" (router_of orders_engine ∅)
                (Drain.insert "user order 789 failed" orders_engine).1
                (Drain.insert "user order 789 failed" orders_engine).2
                eq_refl eq_refl eq_refl eq_refl eq_refl eq_refl) as Hrouter.
  simpl in Hrouter. fold s kwargs after in Hrouter. rewrite Hrouter.
  eexists. split; reflexivity.
Defined.

(** The summary of a router with one annotated cluster. *)
Example print_summary_of_orders :
  stdout (os (TemplateRouter.print_summary (String.concat " ") (λ _, "{...}")
                {| self := router_of orders_engine {[ 0 := {[ "name" := PyStr "orders" ]} ]};
                   os := empty_world |}).2) =
    [ "============================================================";
      "ALL TEMPLATES:";
      "============================================================";
      "Cluster ID: 0";
      "Template: user order * failed";
      "Size: 2";
      "Metadata: {...}";
      "------------------------------------------------------------" ].
Proof. reflexivity. Qed.

(** The callback with the database down: it returns, and the failure is
    printed. *)
Example log_success_event_database_down :
  let s := {| self := auto_router_of (router_of orders_engine ∅); os := empty_world |} in
  let kwargs : gmap string AutoRouter.obj :=
    {[ "messages" := AutoRouter.OList
         [ AutoRouter.ODict {[ "content" := AutoRouter.OStr "user order 789 failed" ]} ] ]} in
  let run := AutoRouter.async_log_success_event str_of_obj str_of_pyval client_at_hand
               clock_at_zero database_down seconds_between kwargs None None None s in
  run.1 = Ok tt
  ∧ stdout (os run.2) =
      [ "AutoRouter: failed to save prompt/response to DB: connection refused" ].
Proof. split; reflexivity. Qed.

(** [message_without_content_is_empty_text]: a last message with a role
    only. *)
Lemma message_without_content_is_empty_text_witness :
  let s := {| self := auto_router_of (router_of orders_engine ∅); os := empty_world |} in
  let chosen (o : outcome (option AutoRouter.PreRoutingHookResponse)) :=
    match o with
    | Ok (Some response) => Ok (Some (AutoRouter.model response))
    | Ok None => Ok None
    | Raise e => Raise e
    end in
  chosen (AutoRouter.async_pre_routing_hook new_route_layer "auto_router1" ∅
            (Some [ {[ "role" := "user" ]} ]) None None s).1 =
  chosen (AutoRouter.async_pre_routing_hook new_route_layer "auto_router1" ∅
            (Some [ <["content" := ""]> {[ "role" := "user" ]} ]) None None s).1.
Proof.
  intros s.
  exact (message_without_content_is_empty_text new_route_layer (miner := Drain.t)
           "auto_router1" ∅ [] {[ "role" := "user" ]} None None s s
           (router_of orders_engine ∅) eq_refl eq_refl eq_refl).
Defined.

(** [config_path_wins]: a path, with and without an inline configuration. *)
Lemma config_path_wins_witness :
  let run1 :=
    AutoRouter.__init__ (miner := Drain.t) (SemanticRouter := unit)
      loads_empty_object unit_route no_routes_from_json "a" "gpt-4o-mini" "e" tt
      (Some "routes.json") None empty_world in
  let run2 :=
    AutoRouter.__init__ (miner := Drain.t) (SemanticRouter := unit)
      loads_two_entries unit_route no_routes_from_json "a" "gpt-4o-mini" "e" tt
      (Some "routes.json") (Some "{}") empty_world in
  run1.2 = run2.2
  ∧ match run1.1, run2.1 with
    | AutoRouter.Returned a1, AutoRouter.Returned a2 =>
        AutoRouter.auto_router_config a1 = None
        ∧ AutoRouter.auto_router_config a2 = Some "{}"
        ∧ a1 = AutoRouter.with_auto_router_config None a2
        ∧ AutoRouter.loaded_routes a1 = AutoRouter.loaded_routes a2
    | AutoRouter.Raised r1, AutoRouter.Raised r2 => r1 = r2
    | _, _ => False
    end.
Proof.
  exact (config_path_wins (miner := Drain.t) (SemanticRouter := unit)
           loads_empty_object unit_route no_routes_from_json "a" "gpt-4o-mini" "e"
           "routes.json" tt (Some "routes.json") None (Some "{}")
           loads_two_entries unit_route empty_world eq_refl).
Defined.

(** [routes_all_or_nothing]: the second entry is a number. *)
Lemma routes_all_or_nothing_witness :
  ∃ r, AutoRouter._load_auto_router_routes_from_config_json loads_two_entries unit_route
         (Some "two entries") = AutoRouter.Raised r.
Proof.
  apply (routes_all_or_nothing loads_two_entries unit_route "two entries"
           {[ "routes" := AutoRouter.JArray [AutoRouter.JObject ∅; AutoRouter.JInt 7] ]}
           [AutoRouter.JObject ∅] [] (AutoRouter.JInt 7)).
  - reflexivity.
  - reflexivity.
  - discriminate.
Defined.

(** [annotation_is_local]: cluster 5 is annotated, the orders are cluster
    0. *)
Lemma annotation_is_local_witness :
  let s := {| self := router_of orders_engine ∅; os := empty_world |} in
  (TemplateRouter.match_ "user order 7 failed"
     (TemplateRouter.set_cluster_metadata 5 "logins" ∅ s).2).1
    = (TemplateRouter.match_ "user order 7 failed" s).1.
Proof.
  intros s.
  apply (annotation_is_local (miner := Drain.t) "user order 7 failed" 5 "logins" ∅ s
           {| cluster_id := 0;
              log_template_tokens := [Tok "user"; Tok "order"; Wildcard; Tok "failed"];
              size := 2 |} orders_engine).
  - reflexivity.
  - discriminate.
Defined.

(** [default_names_differ]: an order and a login, in two clusters. *)
Lemma default_names_differ_witness :
  let s := {| self := router_of two_shapes_engine ∅; os := empty_world |} in
  ∃ result1 result2 : dict,
    (TemplateRouter.match_ "user order 7 failed" s).1 = Ok (Some result1)
    ∧ (TemplateRouter.match_ "login ok" s).1 = Ok (Some result2)
    ∧ result1 !! "name" ≠ result2 !! "name".
Proof.
  intros s.
  apply (default_names_differ (miner := Drain.t) "user order 7 failed" "login ok" s
           {| cluster_id := 0;
              log_template_tokens := [Tok "user"; Tok "order"; Wildcard; Tok "failed"];
              size := 2 |}
           {| cluster_id := 1;
              log_template_tokens := [Tok "login"; Tok "ok"];
              size := 1 |}
           two_shapes_engine two_shapes_engine); try reflexivity.
  discriminate.
Defined.
